(** * The abalone age predictor: [model_fn] of [abalone.py]

    The notebook prints the training script [abalone.py].  Its [model_fn]
    builds a three-layer dense network with the Keras functional API, a
    mean-squared-error loss, an SGD training operation and an RMSE metric,
    and packs them into an [EstimatorSpec] that depends on the mode.

    Conventions of this development.
    - A float tensor is a list (vector) or a list of rows (matrix) of real
      numbers: the exact values that the 32-bit floats of the script stand
      for.  Rounding, overflow and NaN of the float arithmetic are not
      represented.  The conversion of the integer labels to float32 is:
      it decides which number enters the loss.
    - The script relies on the ambient TensorFlow graph for its persistent
      variables (three kernel/bias pairs and the global step).  Here that
      store is the explicit first argument [vs] of [model_fn], and a
      tensor carries the value that running the graph on this store
      yields.  Whether the store holds variables of the shapes that the
      layers have built is checked where the estimator restores them,
      after [model_fn] has returned.
    - The TensorFlow operations that the script calls ([Dense],
      [tf.reshape], [tf.cast], [mean_squared_error],
      [root_mean_squared_error], [optimize_loss], [EstimatorSpec]) are
      functions on these values that compute what the operation computes
      and raise what it raises.
    - A [Tensor] carries its value together with its reverse-mode gradient
      function, which is what the optimizer of [optimize_loss] consumes.
    - Python exceptions are the [Raise] results of the [result] monad. *)

From Stdlib Require Import Reals Lra Lia Ascii String ZArith Bool Arith List.
Import ListNotations.
Open Scope string_scope.
Open Scope R_scope.

(** ** Exceptions and the error monad *)

Inductive Exception : Type :=
| KeyError (key : string)
| ValueError (msg : string)
| TypeError (msg : string)
| InvalidArgumentError (msg : string).

Inductive result (A : Type) : Type :=
| Ok (a : A)
| Raise (e : Exception).

Arguments Ok {A} a.
Arguments Raise {A} e.

Definition bind {A B : Type} (r : result A) (k : A -> result B) : result B :=
  match r with
  | Ok a => k a
  | Raise e => Raise e
  end.

Notation "x <- c ;; k" := (bind c (fun x => k))
  (at level 61, c at next level, right associativity).

(** ** Python dictionaries with string keys *)

Definition dict (A : Type) : Type := list (string * A).

Fixpoint getitem {A : Type} (d : dict A) (key : string) : result A :=
  match d with
  | [] => Raise (KeyError key)
  | (k, v) :: d' => if String.eqb k key then Ok v else getitem d' key
  end.

(** ** Vectors and matrices *)

Definition Vector : Type := list R.
Definition Matrix : Type := list Vector.

Fixpoint map2 {A B C : Type} (f : A -> B -> C) (u : list A) (v : list B) : list C :=
  match u, v with
  | a :: u', b :: v' => f a b :: map2 f u' v'
  | _, _ => []
  end.

Definition zeros (n : nat) : Vector := repeat 0 n.
Definition vadd : Vector -> Vector -> Vector := map2 Rplus.
Definition vsub : Vector -> Vector -> Vector := map2 Rminus.
Definition vscale (c : R) : Vector -> Vector := map (Rmult c).
Definition vsum (v : Vector) : R := fold_right Rplus 0 v.
Definition dot (u v : Vector) : R := vsum (map2 Rmult u v).

Definition madd : Matrix -> Matrix -> Matrix := map2 vadd.
Definition msub : Matrix -> Matrix -> Matrix := map2 vsub.
Definition mscale (c : R) : Matrix -> Matrix := map (vscale c).

(** [vecmat units x K] is the row vector [x] times the matrix [K] given by
    its rows: the sum of [x_i * K_i]. *)
Fixpoint vecmat (units : nat) (x : Vector) (K : Matrix) : Vector :=
  match x, K with
  | xi :: x', Ki :: K' => vadd (vscale xi Ki) (vecmat units x' K')
  | _, _ => zeros units
  end.

Definition outer (x g : Vector) : Matrix := map (fun xi => vscale xi g) x.

(** [matT_mul d units X G] is [transpose X * G], a [d] by [units] matrix,
    accumulated row by row of the batch. *)
Fixpoint matT_mul (d units : nat) (X G : Matrix) : Matrix :=
  match X, G with
  | x :: X', g :: G' => madd (outer x g) (matT_mul d units X' G')
  | _, _ => repeat (zeros units) d
  end.

Definition colsum (units : nat) (G : Matrix) : Vector :=
  fold_right vadd (zeros units) G.

(** [tf.reshape(t, [-1])] and the reshape back of its gradient. *)
Definition flatten (m : Matrix) : Vector := List.concat m.

Fixpoint unflatten (like : Matrix) (g : Vector) : Matrix :=
  match like with
  | [] => []
  | r :: like' =>
      firstn (length r) g :: unflatten like' (skipn (length r) g)
  end.

(** ** Tensors, variables and gradients *)

Inductive DType : Type := float32 | float64 | int64.

Definition DType_eqb (a b : DType) : bool :=
  match a, b with
  | float32, float32 | float64, float64 | int64, int64 => true
  | _, _ => false
  end.

(** A dense layer owns a kernel of shape [input_dim, units] and a bias of
    length [units]. *)
Record DenseVars : Type := mkDense { kernel : Matrix; bias : Vector }.

(** The layers of the script: ['first-layer'] is named by the script, the
    other two get the default names of Keras. *)
Inductive LayerName : Type := first_layer | dense | dense_1.

(** The persistent state: trainable variables and the global step. *)
Record Variables : Type := mkVars {
  var_first_layer : DenseVars;
  var_dense : DenseVars;
  var_dense_1 : DenseVars;
  global_step : Z
}.

Definition get_layer (vs : Variables) (n : LayerName) : DenseVars :=
  match n with
  | first_layer => var_first_layer vs
  | dense => var_dense vs
  | dense_1 => var_dense_1 vs
  end.

Definition set_layer (vs : Variables) (n : LayerName) (l : DenseVars) : Variables :=
  match n with
  | first_layer => mkVars l (var_dense vs) (var_dense_1 vs) (global_step vs)
  | dense => mkVars (var_first_layer vs) l (var_dense_1 vs) (global_step vs)
  | dense_1 => mkVars (var_first_layer vs) (var_dense vs) l (global_step vs)
  end.

(** Gradients as [compute_gradients] returns them: one (gradient, variable)
    entry per layer reached from the loss. *)
Definition Grads : Type := list (LayerName * DenseVars).

Record Tensor (A : Type) : Type := mkTensor {
  dtype : DType;
  value : A;
  backward : A -> Grads
}.

Arguments mkTensor {A} dtype value backward.
Arguments dtype {A} t.
Arguments value {A} t.
Arguments backward {A} t.

(** A tensor fed from outside the graph: nothing to differentiate. *)
Definition constant {A : Type} (d : DType) (v : A) : Tensor A :=
  mkTensor d v (fun _ => []).

(** ** [tf.keras.layers.Dense]

    A layer is created inside [model_fn] and builds its kernel, of shape
    [input_dim, units], for the width of the inputs it is applied to: no
    row length is rejected while the graph is built.  The values of the
    kernel and of the bias are those of the variable store; that the
    store holds values of the shapes the layers have built is checked
    when the variables are restored ([restore] below), not here. *)

Inductive Activation : Type := relu | linear.

Definition activate (a : Activation) (z : R) : R :=
  match a with
  | relu => Rmax 0 z
  | linear => z
  end.

(** Gradient of the activation at pre-activation [z] for upstream [g]:
    the ReLU passes [g] where [z > 0] and blocks it elsewhere. *)
Definition activate_grad (a : Activation) (z g : R) : R :=
  match a with
  | relu => if Rlt_dec 0 z then g else 0
  | linear => g
  end.

Definition affine (units : nat) (l : DenseVars) (X : Matrix) : Matrix :=
  map (fun x => vadd (vecmat units x (kernel l)) (bias l)) X.

(** The computation of the layer ([Layer.call]): outputs and gradient. *)
Definition call (units : nat) (act : Activation) (name : LayerName)
    (vs : Variables) (inputs : Tensor Matrix) : Tensor Matrix :=
  let l := get_layer vs name in
  let X := value inputs in
  let Z := affine units l X in
  mkTensor (dtype inputs)
    (map (map (activate act)) Z)
    (fun g =>
       let gz := map2 (map2 (activate_grad act)) Z g in
       (name, mkDense (matT_mul (length (kernel l)) units X gz)
                      (colsum units gz))
       :: backward inputs (map (fun gr => map (dot gr) (kernel l)) gz)).

(** Applying the layer ([Layer.__call__]) builds it for its inputs and
    computes. *)
Definition Dense (units : nat) (act : Activation) (name : LayerName)
    (vs : Variables) (inputs : Tensor Matrix) : Tensor Matrix :=
  call units act name vs inputs.

(** [tf.reshape(output_layer, [-1])] *)
Definition reshape_flat (t : Tensor Matrix) : Tensor Vector :=
  mkTensor (dtype t) (flatten (value t))
    (fun g => backward t (unflatten (value t) g)).

(** Conversion of an integer to the binary floating-point number of
    [prec] significant bits that is nearest to it, ties going to the even
    significand.  Integers of at most [prec] bits are kept; of a longer
    one the [e] low bits are rounded away.  The labels are 64-bit
    integers, far below the largest number of either float format. *)
Definition round_int (prec : Z) (z : Z) : Z :=
  let a := Z.abs z in
  let e := (Z.log2 a + 1 - prec)%Z in
  if (e <=? 0)%Z then z
  else
    let q := Z.shiftr a e in
    let r := Z.land a (Z.ones e) in
    let half := Z.shiftl 1 (e - 1) in
    let q' :=
      if (r <? half)%Z then q
      else if (half <? r)%Z then (q + 1)%Z
      else if Z.even q then q
      else (q + 1)%Z in
    (Z.sgn z * Z.shiftl q' e)%Z.

(** [math_ops.to_float]: the integer as a float32, which has 24
    significant bits; [to_double] for float64, which has 53. *)
Definition to_float (z : Z) : R := IZR (round_int 24 z).
Definition to_double (z : Z) : R := IZR (round_int 53 z).

(** [tf.cast(labels, dtype)] on an integer tensor. *)
Definition cast (labels : list Z) (d : DType) : Tensor Vector :=
  constant d
    (map match d with
         | float32 => to_float
         | float64 => to_double
         | int64 => IZR
         end labels).

(** ** [tf.losses.mean_squared_error] *)

Definition safe_div (a : R) (n : nat) : R :=
  match n with
  | O => 0
  | S _ => a / INR n
  end.

Definition squared_difference (p l : R) : R := (p - l) * (p - l).

(** Labels and predictions are both converted to float; the loss is the sum
    of the squared differences over the number of elements. *)
Definition mean_squared_error (labels : option (list Z))
    (predictions : Tensor Vector) : result (Tensor R) :=
  match labels with
  | None => Raise (ValueError "labels must not be None.")
  | Some ls =>
      let y := map to_float ls in
      let p := value predictions in
      let n := length p in
      if Nat.eqb (length y) n then
        Ok (mkTensor float32
              (safe_div (vsum (map2 squared_difference p y)) n)
              (fun g =>
                 backward predictions
                   (map2 (fun pi yi => safe_div (g * (2 * (pi - yi))) n) p y)))
      else Raise (ValueError "Shapes are incompatible")
  end.

(** ** [tf.metrics.root_mean_squared_error]

    A streaming metric: two local variables [total] and [count] accumulate
    the squared errors seen so far; the value is the root of their ratio. *)

Record MeanVars : Type := mkMean { total : R; count : nat }.

Definition local_variables_initializer : MeanVars := mkMean 0 0.

Record MetricOp : Type := mkMetric {
  value_tensor : MeanVars -> R;
  update_op : MeanVars -> MeanVars * R
}.

Definition root_mean_squared_error (labels predictions : Tensor Vector)
    : result MetricOp :=
  if negb (DType_eqb (dtype labels) (dtype predictions)) then
    Raise (TypeError "labels and predictions must have the same dtype")
  else if negb (Nat.eqb (length (value labels)) (length (value predictions))) then
    Raise (ValueError "Shapes are incompatible")
  else
    let sq := map2 squared_difference (value labels) (value predictions) in
    Ok (mkMetric
          (fun m => sqrt (safe_div (total m) (count m)))
          (fun m =>
             let m' := mkMean (total m + vsum sq) (count m + length sq) in
             (m', sqrt (safe_div (total m') (count m'))))).

(** ** [tf.contrib.layers.optimize_loss] with [optimizer="SGD"] *)

Definition sgd_update (lr : R) (v g : DenseVars) : DenseVars :=
  mkDense (msub (kernel v) (mscale lr (kernel g)))
          (vsub (bias v) (vscale lr (bias g))).

(** [apply_gradients]: every variable moves against its gradient, then the
    global step is incremented. *)
Definition apply_gradients (lr : R) (grads : Grads) (step : Z)
    (vs : Variables) : Variables :=
  let vs' :=
    fold_left (fun s ng => set_layer s (fst ng)
                             (sgd_update lr (get_layer s (fst ng)) (snd ng)))
              grads vs in
  mkVars (var_first_layer vs') (var_dense vs') (var_dense_1 vs') (step + 1).

(** The training tensor: evaluating it applies the update and yields the
    loss.  [after] is the variable store once the operation has run. *)
Record TrainOp : Type := mkTrainOp { train_loss : R; after : Variables }.

Definition get_global_step (vs : Variables) : Z := global_step vs.

(** A negative learning rate is rejected.  Of the optimizer names only
    "SGD", the one the script passes, is modelled. *)
Definition optimize_loss (vs : Variables) (loss : Tensor R) (step : Z)
    (learning_rate : R) (optimizer : string) : result TrainOp :=
  if Rlt_dec learning_rate 0 then
    Raise (ValueError "Invalid learning_rate")
  else if String.eqb optimizer "SGD" then
    let gradients := backward loss 1 in
    Ok (mkTrainOp (value loss)
          (apply_gradients learning_rate gradients step vs))
  else Raise (ValueError "Optimizer name should be one of the known names").

(** ** [tf.estimator.EstimatorSpec] *)

Module ModeKeys.
Definition TRAIN : string := "train".
Definition EVAL : string := "eval".
Definition PREDICT : string := "infer".
End ModeKeys.

Record PredictOutput : Type := mkPredictOutput { outputs : dict (Tensor Vector) }.

Record EstimatorSpec : Type := mkEstimatorSpec {
  mode : string;
  predictions : dict (Tensor Vector);
  loss : option (Tensor R);
  train_op : option TrainOp;
  eval_metric_ops : dict MetricOp;
  export_outputs : option (dict PredictOutput)
}.

(** The constructor validates what each mode requires and fills the
    defaults; it does not look at the mode beyond these three tests. *)
Definition EstimatorSpec_new (mode : string)
    (predictions : option (dict (Tensor Vector)))
    (loss : option (Tensor R)) (train_op : option TrainOp)
    (eval_metric_ops : option (dict MetricOp))
    (export_outputs : option (dict PredictOutput)) : result EstimatorSpec :=
  match train_op, String.eqb mode ModeKeys.TRAIN with
  | None, true => Raise (ValueError "Missing train_op.")
  | _, _ =>
    match loss, String.eqb mode ModeKeys.TRAIN || String.eqb mode ModeKeys.EVAL with
    | None, true => Raise (ValueError "Missing loss.")
    | _, _ =>
      match predictions, String.eqb mode ModeKeys.PREDICT with
      | None, true => Raise (ValueError "Missing predictions.")
      | _, _ =>
          Ok (mkEstimatorSpec mode
                match predictions with Some p => p | None => [] end
                loss train_op
                match eval_metric_ops with Some m => m | None => [] end
                export_outputs)
      end
    end
  end.

(** ** The script *)

Definition INPUT_TENSOR_NAME : string := "inputs".
Definition SIGNATURE_NAME : string := "serving_default".
Definition LEARNING_RATE : R := 1 / 1000.

Definition model_fn (vs : Variables) (features : dict Matrix)
    (labels : option (list Z)) (mode : string) (params : dict R)
    : result EstimatorSpec :=
  inputs <- getitem features INPUT_TENSOR_NAME ;;
  let first_hidden_layer :=
    Dense 10 relu first_layer vs (constant float32 inputs) in
  let second_hidden_layer := Dense 10 relu dense vs first_hidden_layer in
  let output_layer := Dense 1 linear dense_1 vs second_hidden_layer in
  let predictions := reshape_flat output_layer in
  if String.eqb mode ModeKeys.PREDICT then
    EstimatorSpec_new mode
      (Some [("ages", predictions)])
      None None None
      (Some [(SIGNATURE_NAME, mkPredictOutput [("ages", predictions)])])
  else
    loss <- mean_squared_error labels predictions ;;
    learning_rate <- getitem params "learning_rate" ;;
    train_op <-
      optimize_loss vs loss (get_global_step vs) learning_rate "SGD" ;;
    let predictions_dict := [("ages", predictions)] in
    labels_tensor <-
      match labels with
      | Some ls => Ok (cast ls float32)
      | None => Raise (ValueError "None values not supported.")
      end ;;
    rmse <- root_mean_squared_error labels_tensor predictions ;;
    let eval_metric_ops := [("rmse", rmse)] in
    EstimatorSpec_new mode None (Some loss) (Some train_op)
      (Some eval_metric_ops) None.

Definition params : dict R := [("learning_rate", LEARNING_RATE)].

(** ** Shapes, the forward pass and the driver *)

(** A layer of shape [d] by [units]. *)
Definition layer_shaped (d units : nat) (l : DenseVars) : Prop :=
  length (kernel l) = d
  /\ Forall (fun r => length r = units) (kernel l)
  /\ length (bias l) = units.

(** The parameter state of the network: 7x10, 10x10 and 10x1.  The input
    width 7 is the one of the placeholder of [serving_input_fn]. *)
Definition vars_shaped (vs : Variables) : Prop :=
  layer_shaped 7 10 (var_first_layer vs)
  /\ layer_shaped 10 10 (var_dense vs)
  /\ layer_shaped 10 1 (var_dense_1 vs).

(** A matrix of [d] rows and [units] columns. *)
Definition mat_shaped (d units : nat) (M : Matrix) : Prop :=
  length M = d /\ Forall (fun r => length r = units) M.

(** The hyper-parameters hold the learning rate [lr], which is not
    negative. *)
Definition has_learning_rate (params : dict R) (lr : R) : Prop :=
  getitem params "learning_rate" = Ok lr /\ 0 <= lr.

(** A feature batch: every row has [d] components. *)
Definition batch_shaped (d : nat) (X : Matrix) : Prop :=
  Forall (fun x => length x = d) X.

(** Values of the three layers and of the prediction vector. *)
Definition hidden1 (vs : Variables) (X : Matrix) : Matrix :=
  map (map (activate relu)) (affine 10 (var_first_layer vs) X).

Definition hidden2 (vs : Variables) (X : Matrix) : Matrix :=
  map (map (activate relu)) (affine 10 (var_dense vs) (hidden1 vs X)).

Definition output (vs : Variables) (X : Matrix) : Matrix :=
  map (map (activate linear)) (affine 1 (var_dense_1 vs) (hidden2 vs X)).

Definition predict (vs : Variables) (X : Matrix) : Vector :=
  flatten (output vs X).

(** The prediction tensor that [model_fn] builds on a well-shaped batch. *)
Definition net (vs : Variables) (X : Matrix) : Tensor Vector :=
  reshape_flat
    (call 1 linear dense_1 vs
       (call 10 relu dense vs
          (call 10 relu first_layer vs (constant float32 X)))).

(** Mean over the rows of the squared difference between label and
    prediction, as the specification words it; written on its own, with
    none of the operations the loss is computed with. *)
Fixpoint squared_differences (y p : Vector) : R :=
  match y, p with
  | yi :: y', pi :: p' => (yi - pi) ^ 2 + squared_differences y' p'
  | _, _ => 0
  end.

Definition mean_squared (y p : Vector) : R :=
  squared_differences y p / INR (length p).

(** What the estimator runs for a spec: [train] runs the training
    operation, [evaluate] and [predict] only read the variables. *)
Definition run (vs : Variables) (spec : EstimatorSpec) : Variables :=
  if String.eqb (mode spec) ModeKeys.TRAIN then
    match train_op spec with
    | Some op => after op
    | None => vs
    end
  else vs.

(** Restoring the variables of the graph from the store: the first
    kernel was built for the width of the feature rows, the other two for
    the ten units of the layer before them.  Saved values of another
    shape cannot be assigned.  (A batch without rows carries no width
    here.) *)
Definition shape_ok (units : nat) (l : DenseVars) (X : Matrix) : bool :=
  forallb (fun x => Nat.eqb (length x) (length (kernel l))) X
  && forallb (fun r => Nat.eqb (length r) units) (kernel l)
  && Nat.eqb (length (bias l)) units.

Definition layer_fits (d units : nat) (l : DenseVars) : bool :=
  Nat.eqb (length (kernel l)) d
  && forallb (fun r => Nat.eqb (length r) units) (kernel l)
  && Nat.eqb (length (bias l)) units.

Definition restore (vs : Variables) (features : dict Matrix) : result unit :=
  inputs <- getitem features INPUT_TENSOR_NAME ;;
  if shape_ok 10 (var_first_layer vs) inputs
     && layer_fits 10 10 (var_dense vs)
     && layer_fits 10 1 (var_dense_1 vs)
  then Ok tt
  else
    Raise (InvalidArgumentError
             "Assign requires shapes of both tensors to match.").

(** An invocation by the estimator: [model_fn] builds the graph and the
    spec, the variables are restored, the spec is run. *)
Definition invoke (vs : Variables) (features : dict Matrix)
    (labels : option (list Z)) (mode : string) (params : dict R)
    : result (EstimatorSpec * Variables) :=
  spec <- model_fn vs features labels mode params ;;
  _ <- restore vs features ;;
  Ok (spec, run vs spec).

(** Concrete states and batches used in the examples. *)
Definition zero_layer (d units : nat) : DenseVars :=
  mkDense (repeat (zeros units) d) (zeros units).

Definition zero_vars : Variables :=
  mkVars (zero_layer 7 10) (zero_layer 10 10) (zero_layer 10 1) 0.

Definition zero_batch : Matrix := [[0; 0; 0; 0; 0; 0; 0]].

(** ** The gradient of the loss, layer by layer

    The quantities that reverse-mode differentiation of the graph of
    [model_fn] computes: the derivative of the mean squared error in the
    predictions, pushed back through the linear output layer and the two
    ReLU layers. *)

Definition loss_grad (p y : Vector) : Vector :=
  map2 (fun pi yi => 2 * (pi - yi) / INR (length p)) p y.

Definition relu_mask (Z G : Matrix) : Matrix :=
  map2 (map2 (activate_grad relu)) Z G.

(** [G * transpose K]: the gradient flowing into the inputs of a layer. *)
Definition back (K G : Matrix) : Matrix :=
  map (fun gr => map (dot gr) K) G.

Definition delta3 (vs : Variables) (X : Matrix) (y : Vector) : Matrix :=
  map (fun g => [g]) (loss_grad (predict vs X) y).

Definition delta2 (vs : Variables) (X : Matrix) (y : Vector) : Matrix :=
  relu_mask (affine 10 (var_dense vs) (hidden1 vs X))
    (back (kernel (var_dense_1 vs)) (delta3 vs X y)).

Definition delta1 (vs : Variables) (X : Matrix) (y : Vector) : Matrix :=
  relu_mask (affine 10 (var_first_layer vs) X)
    (back (kernel (var_dense vs)) (delta2 vs X y)).

Definition grad_dense_1 (vs : Variables) (X : Matrix) (y : Vector) : DenseVars :=
  mkDense (matT_mul 10 1 (hidden2 vs X) (delta3 vs X y))
          (colsum 1 (delta3 vs X y)).

Definition grad_dense (vs : Variables) (X : Matrix) (y : Vector) : DenseVars :=
  mkDense (matT_mul 10 10 (hidden1 vs X) (delta2 vs X y))
          (colsum 10 (delta2 vs X y)).

Definition grad_first_layer (vs : Variables) (X : Matrix) (y : Vector) : DenseVars :=
  mkDense (matT_mul 7 10 X (delta1 vs X y))
          (colsum 10 (delta1 vs X y)).

(** One gradient-descent step [theta - lr * grad] on the whole state. *)
Definition sgd_step (lr : R) (vs : Variables) (X : Matrix) (y : Vector) : Variables :=
  mkVars (sgd_update lr (var_first_layer vs) (grad_first_layer vs X y))
         (sgd_update lr (var_dense vs) (grad_dense vs X y))
         (sgd_update lr (var_dense_1 vs) (grad_dense_1 vs X y))
         (global_step vs + 1).

(** ** Gradient descent, as the specification words it

    [theta <- theta - eta * grad], entry by entry: written with the
    access to an entry and the arithmetic of the reals, and with none of
    the operations of the optimizer. *)




(** ** Repeated training invocations *)

Definition batch_ok (b : dict Matrix * list Z) : Prop :=
  exists X,
    getitem (fst b) INPUT_TENSOR_NAME = Ok X
    /\ batch_shaped 7 X
    /\ length (snd b) = length X.


(** ** States whose second hidden layer is inactive on a batch *)

Definition allzero (M : Matrix) : Prop :=
  Forall (Forall (fun a => a = 0)) M.

(** A layer gradient all of whose entries are 0. *)
Definition vanishes (g : DenseVars) : Prop :=
  allzero (kernel g) /\ Forall (fun a => a = 0) (bias g).

(** No unit of the second hidden layer fires on any row of the batch. *)
Definition dead (vs : Variables) (X : Matrix) : Prop :=
  Forall (Forall (fun z => z <= 0)) (affine 10 (var_dense vs) (hidden1 vs X)).

(** The arithmetic mean of the labels. *)
Definition mean (y : Vector) : R := vsum y / INR (length y).

(** A state with zero hidden kernels, hidden biases -1, output kernel 1
    and output bias 2; a batch of two rows with labels 1 and 3. *)
Definition dead_vars : Variables :=
  mkVars (mkDense (repeat (zeros 10) 7) (repeat (-1) 10))
         (mkDense (repeat (zeros 10) 10) (repeat (-1) 10))
         (mkDense (repeat [1] 10) [2])
         0.

Definition two_rows : Matrix :=
  [[0; 0; 0; 0; 0; 0; 0]; [1; 1; 1; 1; 1; 1; 1]].

Definition two_labels : list Z := [1%Z; 3%Z].

(** ** Derivatives along a line through the parameter state

    [Dv f l]: the real function [f] has derivative [l] at 0.  [Dlist] and
    [Dmat] lift this to vector- and matrix-valued functions, entry by
    entry. *)

Definition Dv (f : R -> R) (l : R) : Prop := derivable_pt_lim f 0 l.

Inductive Dlist : (R -> Vector) -> Vector -> Prop :=
| Dnil (F : R -> Vector) :
    (forall t, F t = []) -> Dlist F []
| Dcons (F : R -> Vector) (f : R -> R) (F1 : R -> Vector) (a : R) (F1' : Vector) :
    (forall t, F t = f t :: F1 t) ->
    Dv f a -> Dlist F1 F1' -> Dlist F (a :: F1').

Inductive Dmat : (R -> Matrix) -> Matrix -> Prop :=
| DMnil (F : R -> Matrix) :
    (forall t, F t = []) -> Dmat F []
| DMcons (F : R -> Matrix) (f : R -> Vector) (F1 : R -> Matrix)
    (a : Vector) (F1' : Matrix) :
    (forall t, F t = f t :: F1 t) ->
    Dlist f a -> Dmat F1 F1' -> Dmat F (a :: F1').

(** ** The loss along a line [vs + t * d] and its gradient *)

Definition shift_layer (t : R) (l d : DenseVars) : DenseVars :=
  mkDense (madd (kernel l) (mscale t (kernel d)))
          (vadd (bias l) (vscale t (bias d))).





(** The gradient of the loss as a state, and its opposite. *)
Definition gradient (vs : Variables) (X : Matrix) (y : Vector) : Variables :=
  mkVars (grad_first_layer vs X y) (grad_dense vs X y) (grad_dense_1 vs X y) 0.

Definition opp_layer (l : DenseVars) : DenseVars :=
  mkDense (map (map Ropp) (kernel l)) (map Ropp (bias l)).

Definition opp_vars (g : Variables) : Variables :=
  mkVars (opp_layer (var_first_layer g)) (opp_layer (var_dense g))
         (opp_layer (var_dense_1 g)) (global_step g).









(** * The rest of the script and of the notebook *)

(** ** Sequences of estimator calls

    A call is a mode with a feature dictionary and labels; the calls run
    one after the other on the state the previous one left. *)

Fixpoint run_calls (vs : Variables)
    (calls : list (string * (dict Matrix * list Z))) (params : dict R)
    : result Variables :=
  match calls with
  | [] => Ok vs
  | c :: rest =>
      r <- invoke vs (fst (snd c)) (Some (snd (snd c))) (fst c) params ;;
      run_calls (snd r) rest params
  end.

(** ** [os.path.join] *)

Definition startswith_sep (s : string) : bool :=
  match s with
  | String c _ => Ascii.eqb c "/"%char
  | EmptyString => false
  end.

Fixpoint endswith_sep (s : string) : bool :=
  match s with
  | EmptyString => false
  | String c EmptyString => Ascii.eqb c "/"%char
  | String _ s' => endswith_sep s'
  end.

Definition join_component (path b : string) : string :=
  if startswith_sep b then b
  else if String.eqb path "" || endswith_sep path then path ++ b
  else path ++ "/" ++ b.

Definition os_path_join (a : string) (p : list string) : string :=
  fold_left join_component p a.

(** ** Reading a data set: [load_csv_without_header]

    The errors of reading are Python's [IndexError], the file system's
    [NotFoundError], or an exception of the [result] monad. *)

Inductive Failure : Type :=
| IndexError (msg : string)
| NotFoundError (filename : string)
| Raised (e : Exception).

Inductive loaded (A : Type) : Type :=
| Loaded (a : A)
| Failed (e : Failure).

Arguments Loaded {A} a.
Arguments Failed {A} e.

Definition bind_loaded {A B : Type} (r : loaded A) (k : A -> loaded B)
    : loaded B :=
  match r with
  | Loaded a => k a
  | Failed e => Failed e
  end.

Notation "x <~ c ;; k" := (bind_loaded c (fun x => k))
  (at level 61, c at next level, right associativity).

Definition lift {A : Type} (r : result A) : loaded A :=
  match r with
  | Ok a => Loaded a
  | Raise e => Failed (Raised e)
  end.

Fixpoint mapM {A B : Type} (f : A -> option B) (l : list A) : option (list B) :=
  match l with
  | [] => Some []
  | a :: l' =>
      match f a, mapM f l' with
      | Some b, Some bs => Some (b :: bs)
      | _, _ => None
      end
  end.

(** [row.pop(-1)]: the row without its last cell, and that cell. *)
Fixpoint pop (row : list string) : loaded (list string * string) :=
  match row with
  | [] => Failed (IndexError "pop from empty list")
  | [c] => Loaded ([], c)
  | c :: row' => r <~ pop row' ;; Loaded (c :: fst r, snd r)
  end.

Record Dataset : Type := mkDataset { data : Matrix; target : list Z }.

(** A batch handed to [model_fn]: the feature dictionary and the labels. *)
Definition Batch : Type := (dict Matrix * list Z)%type.

Definition take {A : Type} (default : A) (idx : list nat) (l : list A) : list A :=
  map (fun i => nth i l default) idx.


(** ** Serving: [serving_input_fn] and the prediction request

    A placeholder has a dtype and a static shape whose dimensions may be
    left open.  A tensor proto carries a dtype, a shape and its values in
    row-major order. *)

Record Placeholder : Type := mkPlaceholder {
  ph_dtype : DType;
  ph_shape : list (option nat)
}.

Definition placeholder (d : DType) (shape : list (option nat)) : Placeholder :=
  mkPlaceholder d shape.

Record ServingInputReceiver : Type := mkServingInputReceiver {
  receiver_features : dict Placeholder;
  receiver_tensors : dict Placeholder
}.

(** For every feature a fresh placeholder of the same dtype and shape,
    with the batch dimension replaced by [default_batch_size], which is
    [None]; a feature without dimensions has no first one to replace. *)
Fixpoint raw_receivers (features : dict Placeholder) : loaded (dict Placeholder) :=
  match features with
  | [] => Loaded []
  | (name, t) :: rest =>
      match ph_shape t with
      | [] => Failed (IndexError "list assignment index out of range")
      | _ :: dims =>
          r <~ raw_receivers rest ;;
          Loaded ((name, placeholder (ph_dtype t) (None :: dims)) :: r)
      end
  end.

Definition build_raw_serving_input_receiver_fn (features : dict Placeholder)
    (_ : unit) : loaded ServingInputReceiver :=
  receiver_tensors <~ raw_receivers features ;;
  Loaded (mkServingInputReceiver receiver_tensors receiver_tensors).

Definition serving_input_fn (params : dict R) : loaded ServingInputReceiver :=
  let tensor := placeholder float32 [Some 1%nat; Some 7%nat] in
  build_raw_serving_input_receiver_fn [(INPUT_TENSOR_NAME, tensor)] tt.

Record TensorProto : Type := mkTensorProto {
  tp_dtype : DType;
  tp_shape : list nat;
  tp_values : Vector
}.

(** [tf.make_tensor_proto(values, shape, dtype)]: more values than the
    shape holds are rejected. *)
Definition make_tensor_proto (values : Vector) (shape : list nat) (d : DType)
    : result TensorProto :=
  if Nat.ltb (fold_right Nat.mul 1%nat shape) (length values) then
    Raise (ValueError "Too many elements provided.")
  else Ok (mkTensorProto d shape values).

Fixpoint rows_of (n cols : nat) (values : Vector) : Matrix :=
  match n with
  | O => []
  | S n' => firstn cols values :: rows_of n' cols (skipn cols values)
  end.

Definition dim_compatible (d : option nat) (n : nat) : bool :=
  match d with
  | None => true
  | Some m => Nat.eqb m n
  end.

Fixpoint shape_compatible (s : list (option nat)) (t : list nat) : bool :=
  match s, t with
  | [], [] => true
  | d :: s', n :: t' => dim_compatible d n && shape_compatible s' t'
  | _, _ => false
  end.

(** Feeding a matrix placeholder: the dtype and the shape of the proto
    must fit the placeholder.  Only protos that carry all the values of
    their shape are decoded here. *)
Definition feed (ph : Placeholder) (tp : TensorProto) : result Matrix :=
  if negb (DType_eqb (ph_dtype ph) (tp_dtype tp)) then
    Raise (TypeError "the dtype of the fed value does not fit the tensor")
  else if negb (shape_compatible (ph_shape ph) (tp_shape tp)) then
    Raise (ValueError "Cannot feed value of this shape")
  else
    match tp_shape tp with
    | [n; cols] =>
        if Nat.eqb (length (tp_values tp)) (n * cols) then
          Ok (rows_of n cols (tp_values tp))
        else Raise (ValueError "the proto does not carry all its values")
    | _ => Raise (ValueError "Cannot feed value of this shape")
    end.

Fixpoint feed_dict (receivers : dict Placeholder) (request : dict TensorProto)
    : result (dict Matrix) :=
  match receivers with
  | [] => Ok []
  | (name, ph) :: rest =>
      tp <- getitem request name ;;
      x <- feed ph tp ;;
      r <- feed_dict rest request ;;
      Ok ((name, x) :: r)
  end.

(** A prediction served from the exported model: the request is fed to
    the receiver tensors of [serving_input_fn], [model_fn] runs in PREDICT
    mode, and the outputs exported under [SIGNATURE_NAME] are returned. *)
Definition serve (vs : Variables) (params : dict R)
    (request : dict TensorProto) : loaded (dict Vector) :=
  receiver <~ serving_input_fn params ;;
  lift (features <- feed_dict (receiver_tensors receiver) request ;;
        spec <- model_fn vs features None ModeKeys.PREDICT params ;;
        match export_outputs spec with
        | Some exported =>
            out <- getitem exported SIGNATURE_NAME ;;
            Ok (map (fun kt => (fst kt, value (snd kt))) (outputs out))
        | None => Raise (ValueError "export_outputs is missing")
        end).

(** [abalone_predictor.predict(tensor_proto)]: the proto is sent as the
    tensor named [INPUT_TENSOR_NAME]. *)
Definition abalone_predictor_predict (vs : Variables) (tensor_proto : TensorProto)
    : loaded (dict Vector) :=
  serve vs params [(INPUT_TENSOR_NAME, tensor_proto)].

Section InputPipeline.

(** The environment of the script: the rows that [csv.reader] yields for
    the file at a path, and the conversions of a cell to the two dtypes. *)
Variable gfile_Open : string -> option (list (list string)).
Variable np_float32 : string -> option R.
Variable np_int : string -> option Z.

Definition asarray (row : list string) : loaded Vector :=
  match mapM np_float32 row with
  | Some x => Loaded x
  | None => Failed (Raised (ValueError "could not convert string to float"))
  end.

(** The loop over the rows: the target cell is popped from the end of the
    row, the remaining cells are the features. *)
Fixpoint read_rows (rows : list (list string)) : loaded (Matrix * list string) :=
  match rows with
  | [] => Loaded ([], [])
  | row :: rows' =>
      r <~ pop row ;;
      x <~ asarray (fst r) ;;
      rest <~ read_rows rows' ;;
      Loaded (x :: fst rest, snd r :: snd rest)
  end.

Definition load_csv_without_header (filename : string) : loaded Dataset :=
  match gfile_Open filename with
  | None => Failed (NotFoundError filename)
  | Some rows =>
      r <~ read_rows rows ;;
      match mapM np_int (snd r) with
      | Some t => Loaded (mkDataset (fst r) t)
      | None =>
          Failed (Raised (ValueError "invalid literal for int()"))
      end
  end.

(** [numpy_input_fn(x, y, num_epochs=None, shuffle=True)()]: after the
    check that all arrays have the same number of rows, the feeding queue
    is set up; with [shuffle=True] it starts at a random row,
    [random.randrange] of the number of rows, which fails when there is
    no row.  Then the batches that the shuffling queue can deliver: a
    batch takes the same row positions from every array; which
    positions, and how many, is the queue's choice. *)
Definition numpy_input_fn (x : dict Matrix) (y : list Z)
    : loaded (Batch -> Prop) :=
  if forallb (fun kv => Nat.eqb (length (snd kv)) (length y)) x then
    match y with
    | [] => Failed (Raised (ValueError "empty range for randrange()"))
    | _ :: _ =>
        Loaded (fun b =>
                  exists idx,
                    Forall (fun i => (i < length y)%nat) idx
                    /\ fst b = map (fun kv => (fst kv, take [] idx (snd kv))) x
                    /\ snd b = take 0%Z idx y)
    end
  else
    Failed (Raised (ValueError "Length of tensors in x and y is mismatched."))
.

Definition _input_fn (training_dir training_filename : string)
    : loaded (Batch -> Prop) :=
  training_set <~
    load_csv_without_header (os_path_join training_dir [training_filename]) ;;
  numpy_input_fn [(INPUT_TENSOR_NAME, data training_set)]
    (target training_set).

Definition train_input_fn (training_dir : string) (params : dict R)
    : loaded (Batch -> Prop) :=
  _input_fn training_dir "abalone_train.csv".


(** The request of the notebook: the features of the first row of the
    prediction file, as a proto of shape [1, len(data)]. *)
Definition tensor_proto : loaded TensorProto :=
  prediction_set <~
    load_csv_without_header (os_path_join "data/abalone_predict.csv" []) ;;
  data0 <~
    match data prediction_set with
    | [] => Failed (IndexError "index 0 is out of bounds")
    | row :: _ => Loaded row
    end ;;
  lift (make_tensor_proto data0 [1%nat; length data0] float32).

End InputPipeline.

(** A file system with one data set per file, one file without rows, and
    a parser of the cells "0", "1" and "3", used in the examples. *)
Definition example_float (s : string) : option R :=
  if String.eqb s "0" then Some 0
  else if String.eqb s "1" then Some 1
  else None.

Definition example_int (s : string) : option Z :=
  if String.eqb s "1" then Some 1%Z
  else if String.eqb s "3" then Some 3%Z
  else None.

Definition example_files (path : string) : option (list (list string)) :=
  if String.eqb path "data/abalone_train.csv" then
    Some [["0"; "0"; "0"; "0"; "0"; "0"; "0"; "3"];
          ["1"; "1"; "1"; "1"; "1"; "1"; "1"; "1"]]
  else if String.eqb path "data/abalone_test.csv" then
    Some [["1"; "1"; "1"; "1"; "1"; "1"; "1"; "3"]]
  else if String.eqb path "data/abalone_predict.csv" then
    Some [["0"; "0"; "0"; "0"; "0"; "0"; "0"; "3"]]
  else if String.eqb path "data/empty.csv" then Some []
  else None.

(** * Properties *)

(** ** Lists and shapes *)

Lemma map2_length {A B C : Type} (f : A -> B -> C) (u : list A) (v : list B) :
  length (map2 f u v) = Nat.min (length u) (length v).
Proof.
  revert v; induction u as [|a u IH]; intros [|b v]; simpl; auto.
Qed.

Lemma zeros_length (n : nat) : length (zeros n) = n.
Proof. apply repeat_length. Qed.

Lemma vadd_length (u v : Vector) :
  length (vadd u v) = Nat.min (length u) (length v).
Proof. apply map2_length. Qed.

Lemma vscale_length (c : R) (v : Vector) : length (vscale c v) = length v.
Proof. apply length_map. Qed.

Lemma vecmat_length (units : nat) (K : Matrix) :
  Forall (fun r => length r = units) K ->
  forall x, length (vecmat units x K) = units.
Proof.
  induction 1 as [|r K Hr HK IH]; intros [|xi x]; simpl;
    try apply zeros_length.
  rewrite vadd_length, vscale_length, Hr, IH. apply Nat.min_id.
Qed.

Lemma affine_length (units : nat) (l : DenseVars) (X : Matrix) :
  length (affine units l X) = length X.
Proof. apply length_map. Qed.

Lemma affine_rows (d units : nat) (l : DenseVars) (X : Matrix) :
  layer_shaped d units l ->
  Forall (fun r => length r = units) (affine units l X).
Proof.
  intros (_ & HK & Hb). unfold affine. apply Forall_map, Forall_forall.
  intros x _. rewrite vadd_length, (vecmat_length units _ HK), Hb.
  apply Nat.min_id.
Qed.

Lemma map_map_rows {A : Type} (f : A -> A) (n : nat) (M : list (list A)) :
  Forall (fun r => length r = n) M ->
  Forall (fun r => length r = n) (map (map f) M).
Proof.
  intros H. apply Forall_map. eapply Forall_impl; [|exact H].
  intros r Hr. simpl. now rewrite length_map.
Qed.

Lemma shape_ok_true (d units : nat) (l : DenseVars) (X : Matrix) :
  layer_shaped d units l -> batch_shaped d X -> shape_ok units l X = true.
Proof.
  intros (Hd & HK & Hb) HX. unfold shape_ok.
  rewrite !andb_true_iff. repeat split.
  - apply forallb_forall. intros x Hx.
    apply Nat.eqb_eq. rewrite Hd.
    exact (proj1 (Forall_forall _ _) HX x Hx).
  - apply forallb_forall. intros r Hr.
    apply Nat.eqb_eq. exact (proj1 (Forall_forall _ _) HK r Hr).
  - now apply Nat.eqb_eq.
Qed.

Lemma shape_ok_false (d units : nat) (l : DenseVars) (X : Matrix) :
  length (kernel l) = d -> ~ batch_shaped d X -> shape_ok units l X = false.
Proof.
  intros Hd HX. unfold shape_ok.
  destruct (forallb (fun x => Nat.eqb (length x) (length (kernel l))) X) eqn:E;
    [|reflexivity].
  exfalso. apply HX. apply Forall_forall. intros x Hx.
  rewrite forallb_forall in E. specialize (E x Hx).
  apply Nat.eqb_eq in E. congruence.
Qed.

Lemma flatten_singletons (M : Matrix) :
  Forall (fun r => length r = 1%nat) M -> length (flatten M) = length M.
Proof.
  induction 1 as [|r M Hr HM IH]; simpl; [reflexivity|].
  unfold flatten in *. simpl. rewrite length_app, Hr, IH. reflexivity.
Qed.

(** ** Labels as floats *)

(** Integers of magnitude up to [2 ^ 24] are float32 numbers. *)
Lemma to_float_exact (z : Z) :
  (Z.abs z <= 16777216)%Z -> to_float z = IZR z.
Proof.
  intros H. unfold to_float. f_equal. unfold round_int.
  destruct (Z.eq_dec (Z.abs z) 16777216) as [E|E].
  - destruct z as [|p|p]; cbn [Z.abs] in E; try discriminate;
      injection E as ->; reflexivity.
  - assert (Hle : (Z.log2 (Z.abs z) + 1 - 24 <= 0)%Z).
    { destruct (Z.eq_dec (Z.abs z) 0) as [E0|E0].
      - rewrite E0. cbn. lia.
      - assert (Z.log2 (Z.abs z) < 24)%Z; [|lia].
        apply Z.log2_lt_pow2; [lia|]. change (2 ^ 24)%Z with 16777216%Z.
        lia. }
    apply Z.leb_le in Hle. cbv zeta. now rewrite Hle.
Qed.


Ltac labels_exact :=
  repeat (rewrite to_float_exact by (cbn [Z.abs]; lia)).

(** ** A dense layer is the affine transform [x W + b] *)

Lemma nth_zeros (j n : nat) : nth j (zeros n) 0 = 0.
Proof.
  unfold zeros. revert j; induction n as [|n IH]; intros [|j]; simpl; auto.
Qed.

Lemma nth_vscale (c : R) (u : Vector) (j : nat) :
  nth j (vscale c u) 0 = c * nth j u 0.
Proof.
  unfold vscale. revert j; induction u as [|a u IH]; intros [|j]; simpl;
    try ring; auto.
Qed.

Lemma nth_vadd (u v : Vector) (j : nat) :
  length u = length v -> nth j (vadd u v) 0 = nth j u 0 + nth j v 0.
Proof.
  unfold vadd. revert v j; induction u as [|a u IH]; intros [|b v] [|j] Hl;
    try discriminate; simpl; try ring.
  apply IH. simpl in Hl. lia.
Qed.

(** Entry [j] of [x K] is the inner product of [x] with column [j]. *)
Lemma vecmat_entry (units : nat) (x : Vector) (K : Matrix) (j : nat) :
  Forall (fun r => length r = units) K ->
  nth j (vecmat units x K) 0 = dot x (map (fun r => nth j r 0) K).
Proof.
  intros HK; revert x; induction HK as [|k K Hk HK IH]; intros [|xi x];
    cbn [vecmat map]; try apply nth_zeros.
  rewrite nth_vadd
    by now rewrite vscale_length, (vecmat_length units K HK).
  rewrite nth_vscale, IH. reflexivity.
Qed.

Lemma affine_entry (d units : nat) (l : DenseVars) (x : Vector) (j : nat) :
  layer_shaped d units l ->
  nth j (vadd (vecmat units x (kernel l)) (bias l)) 0 =
  dot x (map (fun r => nth j r 0) (kernel l)) + nth j (bias l) 0.
Proof.
  intros (_ & Hr & Hb).
  rewrite nth_vadd by now rewrite (vecmat_length units _ Hr).
  now rewrite (vecmat_entry units).
Qed.

(** ** The network built by [model_fn] *)

Lemma hidden1_rows vs X :
  vars_shaped vs -> batch_shaped 10 (hidden1 vs X).
Proof.
  intros (H1 & _). apply map_map_rows. eapply affine_rows; eauto.
Qed.

Lemma hidden2_rows vs X :
  vars_shaped vs -> batch_shaped 10 (hidden2 vs X).
Proof.
  intros (_ & H2 & _). apply map_map_rows. eapply affine_rows; eauto.
Qed.

Lemma output_rows vs X :
  vars_shaped vs -> batch_shaped 1 (output vs X).
Proof.
  intros (_ & _ & H3). apply map_map_rows. eapply affine_rows; eauto.
Qed.

Lemma predict_length vs X :
  vars_shaped vs -> length (predict vs X) = length X.
Proof.
  intros H. unfold predict.
  rewrite flatten_singletons by now apply output_rows.
  unfold output, hidden2, hidden1.
  now rewrite !length_map, affine_length, !length_map, affine_length,
    !length_map, affine_length.
Qed.

Lemma net_value vs X : value (net vs X) = predict vs X.
Proof. reflexivity. Qed.

Lemma net_dtype vs X : dtype (net vs X) = float32.
Proof. reflexivity. Qed.

(** The three layers are applied to whatever rows the features hold, and
    [model_fn] continues with the tensor [net vs X]. *)
Lemma model_fn_graph vs features labels mode params X :
  getitem features INPUT_TENSOR_NAME = Ok X ->
  model_fn vs features labels mode params =
  let predictions := net vs X in
  if String.eqb mode ModeKeys.PREDICT then
    EstimatorSpec_new mode
      (Some [("ages", predictions)])
      None None None
      (Some [(SIGNATURE_NAME, mkPredictOutput [("ages", predictions)])])
  else
    loss <- mean_squared_error labels predictions ;;
    learning_rate <- getitem params "learning_rate" ;;
    train_op <-
      optimize_loss vs loss (get_global_step vs) learning_rate "SGD" ;;
    labels_tensor <-
      match labels with
      | Some ls => Ok (cast ls float32)
      | None => Raise (ValueError "None values not supported.")
      end ;;
    rmse <- root_mean_squared_error labels_tensor predictions ;;
    EstimatorSpec_new mode None (Some loss) (Some train_op)
      (Some [("rmse", rmse)]) None.
Proof.
  intros HX. unfold model_fn. rewrite HX. reflexivity.
Qed.

Lemma model_fn_unfold vs features labels mode params X :
  getitem features INPUT_TENSOR_NAME = Ok X ->
  batch_shaped 7 X -> vars_shaped vs ->
  model_fn vs features labels mode params =
  let predictions := net vs X in
  if String.eqb mode ModeKeys.PREDICT then
    EstimatorSpec_new mode
      (Some [("ages", predictions)])
      None None None
      (Some [(SIGNATURE_NAME, mkPredictOutput [("ages", predictions)])])
  else
    loss <- mean_squared_error labels predictions ;;
    learning_rate <- getitem params "learning_rate" ;;
    train_op <-
      optimize_loss vs loss (get_global_step vs) learning_rate "SGD" ;;
    labels_tensor <-
      match labels with
      | Some ls => Ok (cast ls float32)
      | None => Raise (ValueError "None values not supported.")
      end ;;
    rmse <- root_mean_squared_error labels_tensor predictions ;;
    EstimatorSpec_new mode None (Some loss) (Some train_op)
      (Some [("rmse", rmse)]) None.
Proof.
  intros HX _ _. exact (model_fn_graph vs features labels mode params X HX).
Qed.

Lemma flatten_singleton_rows (M : Matrix) :
  Forall (fun r => length r = 1%nat) M ->
  M = map (fun v => [v]) (flatten M).
Proof.
  induction 1 as [|r M Hr HM IH]; [reflexivity|].
  destruct r as [|v [|w r]]; try discriminate.
  unfold flatten in *. simpl. now rewrite <- IH.
Qed.

Lemma zero_vars_shaped gs :
  vars_shaped (mkVars (zero_layer 7 10) (zero_layer 10 10) (zero_layer 10 1) gs).
Proof.
  unfold vars_shaped, layer_shaped; simpl.
  repeat split; repeat constructor.
Qed.

Lemma zero_batch_shaped : batch_shaped 7 zero_batch.
Proof. repeat constructor. Qed.

Lemma params_learning_rate : has_learning_rate params LEARNING_RATE.
Proof. split; [reflexivity|]. unfold LEARNING_RATE. lra. Qed.

(** ** Prediction mode *)

Lemma model_fn_predict_net vs features labels params X :
  getitem features INPUT_TENSOR_NAME = Ok X ->
  batch_shaped 7 X -> vars_shaped vs ->
  model_fn vs features labels ModeKeys.PREDICT params =
  Ok (mkEstimatorSpec ModeKeys.PREDICT [("ages", net vs X)] None None []
        (Some [(SIGNATURE_NAME, mkPredictOutput [("ages", net vs X)])])).
Proof.
  intros HX Hb Hv. now rewrite (model_fn_unfold _ _ _ _ _ X HX Hb Hv).
Qed.

(** C1. In PREDICT mode the model function returns a spec tagged PREDICT
    whose predictions map the key "ages" to the prediction vector, one
    value per feature row; the spec holds no loss, no training operation
    and no metric, and it is returned whatever the labels and the
    hyper-parameters are, so none of the later steps is executed. *)
Theorem model_fn_predict vs features labels params X :
  getitem features INPUT_TENSOR_NAME = Ok X ->
  batch_shaped 7 X -> vars_shaped vs ->
  exists p,
    model_fn vs features labels ModeKeys.PREDICT params =
      Ok (mkEstimatorSpec ModeKeys.PREDICT [("ages", p)] None None []
            (Some [(SIGNATURE_NAME, mkPredictOutput [("ages", p)])]))
    /\ value p = predict vs X
    /\ length (value p) = length X.
Proof.
  intros HX Hb Hv. exists (net vs X).
  split; [exact (model_fn_predict_net vs features labels params X HX Hb Hv)|].
  split; [apply net_value|].
  rewrite net_value. now apply predict_length.
Qed.

Lemma model_fn_predict_witness :
  exists p,
    model_fn zero_vars [(INPUT_TENSOR_NAME, zero_batch)] None
      ModeKeys.PREDICT [] =
      Ok (mkEstimatorSpec ModeKeys.PREDICT [("ages", p)] None None []
            (Some [(SIGNATURE_NAME, mkPredictOutput [("ages", p)])]))
    /\ value p = predict zero_vars zero_batch
    /\ length (value p) = length zero_batch.
Proof.
  apply (model_fn_predict zero_vars [(INPUT_TENSOR_NAME, zero_batch)] None []
           zero_batch).
  - reflexivity.
  - exact zero_batch_shaped.
  - exact (zero_vars_shaped 0).
Defined.

(** C4. For a non-empty batch of rows with 7 components the prediction
    vector has as many entries as the batch has rows: the rows of the
    [n,1] output of the last dense layer are the singletons of the
    predictions. *)
Theorem prediction_vector_length vs features labels params X :
  getitem features INPUT_TENSOR_NAME = Ok X ->
  X <> [] -> batch_shaped 7 X -> vars_shaped vs ->
  exists spec p,
    model_fn vs features labels ModeKeys.PREDICT params = Ok spec
    /\ getitem (predictions spec) "ages" = Ok p
    /\ length (value p) = length X
    /\ output vs X = map (fun v => [v]) (value p).
Proof.
  intros HX _ Hb Hv.
  eexists; exists (net vs X).
  split; [exact (model_fn_predict_net vs features labels params X HX Hb Hv)|].
  split; [reflexivity|].
  rewrite net_value. split; [now apply predict_length|].
  apply flatten_singleton_rows. now apply output_rows.
Qed.

Lemma prediction_vector_length_witness :
  exists spec p,
    model_fn zero_vars [(INPUT_TENSOR_NAME, zero_batch)] None
      ModeKeys.PREDICT params = Ok spec
    /\ getitem (predictions spec) "ages" = Ok p
    /\ length (value p) = length zero_batch
    /\ output zero_vars zero_batch = map (fun v => [v]) (value p).
Proof.
  apply (prediction_vector_length zero_vars
           [(INPUT_TENSOR_NAME, zero_batch)] None params zero_batch).
  - reflexivity.
  - discriminate.
  - exact zero_batch_shaped.
  - exact (zero_vars_shaped 0).
Defined.

(** ** The all-zero network *)

Lemma vscale_zeros (c : R) (n : nat) : vscale c (zeros n) = zeros n.
Proof.
  unfold vscale, zeros. induction n as [|n IH]; simpl; [reflexivity|].
  rewrite IH. f_equal. ring.
Qed.

Lemma vadd_zeros_l (n : nat) (v : Vector) :
  length v = n -> vadd (zeros n) v = v.
Proof.
  revert v; induction n as [|n IH]; intros [|a v] H; try discriminate;
    [reflexivity|].
  unfold vadd, zeros in *. simpl. rewrite IH by (simpl in H; lia).
  f_equal. ring.
Qed.

Lemma vecmat_zero_kernel (units d : nat) (x : Vector) :
  vecmat units x (repeat (zeros units) d) = zeros units.
Proof.
  revert d; induction x as [|xi x IH]; intros [|d]; simpl; try reflexivity.
  rewrite IH, vscale_zeros. apply vadd_zeros_l, zeros_length.
Qed.

Lemma affine_zero_layer (d units : nat) (X : Matrix) :
  affine units (zero_layer d units) X = map (fun _ => zeros units) X.
Proof.
  unfold affine, zero_layer. simpl. apply map_ext. intros x.
  rewrite vecmat_zero_kernel. apply vadd_zeros_l, zeros_length.
Qed.

Lemma relu_zeros (n : nat) : map (activate relu) (zeros n) = zeros n.
Proof.
  unfold zeros. induction n as [|n IH]; simpl; [reflexivity|].
  rewrite IH. f_equal. apply Rmax_left. lra.
Qed.

(** C9. On the single all-zero row, with every kernel and bias all zero,
    both hidden layers are zero and the prediction is exactly 0. *)
Theorem zero_network_predicts_zero gs labels params :
  let vs :=
    mkVars (zero_layer 7 10) (zero_layer 10 10) (zero_layer 10 1) gs in
  hidden1 vs zero_batch = [zeros 10]
  /\ hidden2 vs zero_batch = [zeros 10]
  /\ exists p,
       model_fn vs [(INPUT_TENSOR_NAME, zero_batch)] labels
         ModeKeys.PREDICT params =
         Ok (mkEstimatorSpec ModeKeys.PREDICT [("ages", p)] None None []
               (Some [(SIGNATURE_NAME, mkPredictOutput [("ages", p)])]))
       /\ value p = [0].
Proof.
  intros vs.
  assert (H1 : hidden1 vs zero_batch = [zeros 10]).
  { unfold hidden1, vs. cbn [var_first_layer].
    rewrite affine_zero_layer. cbn [map zero_batch].
    now rewrite relu_zeros. }
  assert (H2 : hidden2 vs zero_batch = [zeros 10]).
  { unfold hidden2. rewrite H1. unfold vs. cbn [var_dense].
    rewrite affine_zero_layer. cbn [map]. now rewrite relu_zeros. }
  split; [exact H1|]. split; [exact H2|].
  exists (net vs zero_batch). split.
  - exact (model_fn_predict_net vs [(INPUT_TENSOR_NAME, zero_batch)] labels
             params zero_batch eq_refl zero_batch_shaped
             (zero_vars_shaped gs)).
  - rewrite net_value. unfold predict, output. rewrite H2.
    unfold vs. cbn [var_dense_1]. rewrite affine_zero_layer. reflexivity.
Qed.

(** ** Training and evaluation modes *)

Lemma EstimatorSpec_new_train_eval mode l op ms :
  String.eqb mode ModeKeys.PREDICT = false ->
  EstimatorSpec_new mode None (Some l) (Some op) (Some ms) None =
  Ok (mkEstimatorSpec mode [] (Some l) (Some op) ms None).
Proof.
  intros Hm. unfold EstimatorSpec_new. rewrite Hm.
  destruct (String.eqb mode ModeKeys.TRAIN);
    destruct (String.eqb mode ModeKeys.TRAIN || String.eqb mode ModeKeys.EVAL);
    reflexivity.
Qed.

(** Every mode other than PREDICT takes the same path: loss, training
    operation and metric are built from the same tensors, and only the
    tag of the returned spec depends on the mode. *)
Lemma model_fn_not_predict_rows vs features ls params X lr :
  getitem features INPUT_TENSOR_NAME = Ok X ->
  vars_shaped vs ->
  length ls = length X ->
  has_learning_rate params lr ->
  exists l op m,
    mean_squared_error (Some ls) (net vs X) = Ok l
    /\ optimize_loss vs l (get_global_step vs) lr "SGD" = Ok op
    /\ root_mean_squared_error (cast ls float32) (net vs X) = Ok m
    /\ forall mode,
         mode <> ModeKeys.PREDICT ->
         model_fn vs features (Some ls) mode params =
         Ok (mkEstimatorSpec mode [] (Some l) (Some op) [("rmse", m)] None).
Proof.
  intros HX Hv Hl (Hlr & Hlr0).
  assert (Hn : length (map to_float ls) = length (value (net vs X))).
  { rewrite length_map, net_value, predict_length by assumption. exact Hl. }
  destruct (mean_squared_error (Some ls) (net vs X)) as [l|e] eqn:El.
  2:{ exfalso. unfold mean_squared_error in El.
      rewrite Hn, Nat.eqb_refl in El. discriminate. }
  destruct (optimize_loss vs l (get_global_step vs) lr "SGD") as [op|e] eqn:Eo.
  2:{ exfalso. unfold optimize_loss in Eo.
      destruct (Rlt_dec lr 0); [lra|discriminate]. }
  destruct (root_mean_squared_error (cast ls float32) (net vs X))
    as [m|e] eqn:Em.
  2:{ exfalso. unfold root_mean_squared_error in Em.
      cbn [cast constant dtype value] in Em.
      rewrite net_dtype, Hn, Nat.eqb_refl in Em. discriminate. }
  exists l, op, m. do 3 (split; [first [reflexivity | eassumption]|]).
  intros mode Hmode.
  rewrite (model_fn_graph _ _ _ _ _ X HX). cbv zeta.
  assert (Hp : String.eqb mode ModeKeys.PREDICT = false)
    by now apply String.eqb_neq.
  rewrite Hp, El. cbn [bind]. rewrite Hlr. cbn [bind].
  rewrite Eo. cbn [bind]. rewrite Em. cbn [bind].
  now apply EstimatorSpec_new_train_eval.
Qed.

Lemma model_fn_not_predict vs features ls params X lr :
  getitem features INPUT_TENSOR_NAME = Ok X ->
  batch_shaped 7 X -> vars_shaped vs ->
  length ls = length X ->
  has_learning_rate params lr ->
  exists l op m,
    mean_squared_error (Some ls) (net vs X) = Ok l
    /\ optimize_loss vs l (get_global_step vs) lr "SGD" = Ok op
    /\ root_mean_squared_error (cast ls float32) (net vs X) = Ok m
    /\ forall mode,
         mode <> ModeKeys.PREDICT ->
         model_fn vs features (Some ls) mode params =
         Ok (mkEstimatorSpec mode [] (Some l) (Some op) [("rmse", m)] None).
Proof.
  intros HX _. exact (model_fn_not_predict_rows vs features ls params X lr HX).
Qed.

Lemma squared_difference_sym (a b : R) :
  squared_difference a b = squared_difference b a.
Proof. unfold squared_difference. ring. Qed.

Lemma map2_sym {A B : Type} (f : A -> A -> B) (u v : list A) :
  (forall a b, f a b = f b a) -> map2 f u v = map2 f v u.
Proof.
  intros Hf. revert v; induction u as [|a u IH]; intros [|b v]; simpl;
    try reflexivity.
  now rewrite Hf, IH.
Qed.

Lemma map2_ext {A B C : Type} (f g : A -> B -> C) (u : list A) (v : list B) :
  (forall a b, f a b = g a b) -> map2 f u v = map2 g u v.
Proof.
  intros Hf. revert v; induction u as [|a u IH]; intros [|b v]; simpl;
    try reflexivity.
  now rewrite Hf, IH.
Qed.




(** The loss tensor of [mean_squared_error]. *)
Lemma mean_squared_error_value ls (p : Tensor Vector) l :
  mean_squared_error (Some ls) p = Ok l ->
  length ls = length (value p)
  /\ value l =
     safe_div (vsum (map2 squared_difference (value p) (map to_float ls)))
       (length (value p)).
Proof.
  unfold mean_squared_error. rewrite length_map.
  destruct (Nat.eqb_spec (length ls) (length (value p))) as [E|E];
    [|discriminate].
  intros H. inversion H; subst. split; [exact E|reflexivity].
Qed.

Lemma squared_differences_vsum (y p : Vector) :
  squared_differences y p = vsum (map2 (fun yi pi => (yi - pi) ^ 2) y p).
Proof.
  revert p. induction y as [|a y IH]; intros [|b p]; try reflexivity.
  cbn [squared_differences map2 vsum fold_right]. now rewrite IH.
Qed.

Lemma mean_squared_vsum (y p : Vector) :
  mean_squared y p =
  vsum (map2 (fun yi pi => (yi - pi) ^ 2) y p) / INR (length p).
Proof. unfold mean_squared. now rewrite squared_differences_vsum. Qed.

Lemma safe_div_mean (y p : Vector) :
  safe_div (vsum (map2 squared_difference p y)) (length p) = mean_squared y p.
Proof.
  rewrite mean_squared_vsum.
  replace (map2 (fun yi pi => (yi - pi) ^ 2) y p)
    with (map2 squared_difference p y).
  2:{ rewrite (map2_sym squared_difference) by apply squared_difference_sym.
      apply map2_ext. intros a b. unfold squared_difference. ring. }
  destruct p as [|a p]; [|reflexivity].
  simpl. unfold Rdiv. now rewrite Rmult_0_l.
Qed.





Lemma root_mean_squared_error_update ls (p : Tensor Vector) m :
  root_mean_squared_error (cast ls float32) p = Ok m ->
  snd (update_op m local_variables_initializer) =
  sqrt (safe_div (vsum (map2 squared_difference (value p) (map to_float ls)))
          (length (value p))).
Proof.
  unfold root_mean_squared_error. cbn [cast constant dtype value].
  destruct (negb (DType_eqb float32 (dtype p))); [discriminate|].
  rewrite length_map.
  destruct (Nat.eqb_spec (length ls) (length (value p))) as [E|E];
    [|discriminate].
  cbn [negb]. intros H. inversion H; subst. cbn.
  rewrite map2_length, length_map, E, Nat.min_id, Rplus_0_l.
  now rewrite (map2_sym squared_difference) by apply squared_difference_sym.
Qed.



(** C10. Whatever the mode, as long as it is not PREDICT, the model
    function returns the same spec up to its tag: it always holds the
    loss, a training operation and the metrics {"rmse": ...}, the metric
    being built on the labels cast to float32.  So an EVAL invocation
    constructs the training operation and a TRAIN invocation carries the
    metric. *)
Theorem not_predict_same_spec vs features ls params X lr :
  getitem features INPUT_TENSOR_NAME = Ok X ->
  batch_shaped 7 X -> vars_shaped vs ->
  length ls = length X ->
  has_learning_rate params lr ->
  exists l op m,
    mean_squared_error (Some ls) (net vs X) = Ok l
    /\ optimize_loss vs l (get_global_step vs) lr "SGD" = Ok op
    /\ root_mean_squared_error (cast ls float32) (net vs X) = Ok m
    /\ dtype (cast ls float32) = float32
    /\ (forall mode,
          mode <> ModeKeys.PREDICT ->
          model_fn vs features (Some ls) mode params =
          Ok (mkEstimatorSpec mode [] (Some l) (Some op) [("rmse", m)] None))
    /\ model_fn vs features (Some ls) ModeKeys.TRAIN params =
       Ok (mkEstimatorSpec ModeKeys.TRAIN [] (Some l) (Some op)
             [("rmse", m)] None)
    /\ model_fn vs features (Some ls) ModeKeys.EVAL params =
       Ok (mkEstimatorSpec ModeKeys.EVAL [] (Some l) (Some op)
             [("rmse", m)] None).
Proof.
  intros HX Hb Hv Hl Hlr.
  destruct (model_fn_not_predict vs features ls params X lr HX Hb Hv Hl Hlr)
    as (l & op & m & El & Eo & Em & Hspec).
  exists l, op, m. do 3 (split; [assumption|]). split; [reflexivity|].
  split; [exact Hspec|]. split; apply Hspec; discriminate.
Qed.

Lemma not_predict_same_spec_witness :
  exists l op m,
    mean_squared_error (Some [3%Z]) (net zero_vars zero_batch) = Ok l
    /\ optimize_loss zero_vars l (get_global_step zero_vars) LEARNING_RATE
         "SGD" = Ok op
    /\ root_mean_squared_error (cast [3%Z] float32)
         (net zero_vars zero_batch) = Ok m
    /\ dtype (cast [3%Z] float32) = float32
    /\ (forall mode,
          mode <> ModeKeys.PREDICT ->
          model_fn zero_vars [(INPUT_TENSOR_NAME, zero_batch)] (Some [3%Z])
            mode params =
          Ok (mkEstimatorSpec mode [] (Some l) (Some op) [("rmse", m)] None))
    /\ model_fn zero_vars [(INPUT_TENSOR_NAME, zero_batch)] (Some [3%Z])
         ModeKeys.TRAIN params =
       Ok (mkEstimatorSpec ModeKeys.TRAIN [] (Some l) (Some op)
             [("rmse", m)] None)
    /\ model_fn zero_vars [(INPUT_TENSOR_NAME, zero_batch)] (Some [3%Z])
         ModeKeys.EVAL params =
       Ok (mkEstimatorSpec ModeKeys.EVAL [] (Some l) (Some op)
             [("rmse", m)] None).
Proof.
  apply (not_predict_same_spec zero_vars [(INPUT_TENSOR_NAME, zero_batch)]
           [3%Z] params zero_batch LEARNING_RATE).
  - reflexivity.
  - exact zero_batch_shaped.
  - exact (zero_vars_shaped 0).
  - reflexivity.
  - exact params_learning_rate.
Defined.

(** ** Restoring the variables and running the spec *)

Lemma layer_fits_true (d units : nat) (l : DenseVars) :
  layer_shaped d units l -> layer_fits d units l = true.
Proof.
  intros (Hd & HK & Hb). unfold layer_fits.
  rewrite !andb_true_iff. repeat split.
  - now apply Nat.eqb_eq.
  - apply forallb_forall. intros r Hr.
    apply Nat.eqb_eq. exact (proj1 (Forall_forall _ _) HK r Hr).
  - now apply Nat.eqb_eq.
Qed.

Lemma restore_ok vs features X :
  getitem features INPUT_TENSOR_NAME = Ok X ->
  batch_shaped 7 X -> vars_shaped vs ->
  restore vs features = Ok tt.
Proof.
  intros HX Hb (H1 & H2 & H3). unfold restore. rewrite HX. cbn [bind].
  now rewrite (shape_ok_true 7 10 _ _ H1 Hb), (layer_fits_true _ _ _ H2),
    (layer_fits_true _ _ _ H3).
Qed.

Lemma restore_malformed vs features X :
  getitem features INPUT_TENSOR_NAME = Ok X ->
  vars_shaped vs -> ~ batch_shaped 7 X ->
  restore vs features =
  Raise (InvalidArgumentError
           "Assign requires shapes of both tensors to match.").
Proof.
  intros HX (H1 & _) Hb. unfold restore. rewrite HX. cbn [bind].
  rewrite (shape_ok_false 7); [reflexivity|apply H1|exact Hb].
Qed.

Lemma invoke_ok vs features labels md params X spec :
  getitem features INPUT_TENSOR_NAME = Ok X ->
  batch_shaped 7 X -> vars_shaped vs ->
  model_fn vs features labels md params = Ok spec ->
  invoke vs features labels md params = Ok (spec, run vs spec).
Proof.
  intros HX Hb Hv Hm. unfold invoke. rewrite Hm. cbn [bind].
  now rewrite (restore_ok vs features X HX Hb Hv).
Qed.

(** ** Input contract *)

Lemma model_fn_no_labels vs features md params X :
  getitem features INPUT_TENSOR_NAME = Ok X ->
  md <> ModeKeys.PREDICT ->
  model_fn vs features None md params =
  Raise (ValueError "labels must not be None.").
Proof.
  intros HX Hmode.
  rewrite (model_fn_graph _ _ _ _ _ X HX). cbv zeta.
  apply String.eqb_neq in Hmode. now rewrite Hmode.
Qed.

Example malformed_row_is_accepted :
  exists spec,
    model_fn zero_vars [(INPUT_TENSOR_NAME, [[0; 0; 0]])] (Some [3%Z])
      ModeKeys.TRAIN params = Ok spec.
Proof.
  destruct (model_fn_not_predict_rows zero_vars
              [(INPUT_TENSOR_NAME, [[0; 0; 0]])] [3%Z] params [[0; 0; 0]]
              LEARNING_RATE eq_refl (zero_vars_shaped 0) eq_refl
              params_learning_rate) as (l & op & m & _ & _ & _ & Hs).
  eexists. apply Hs. discriminate.
Qed.

Example missing_labels_are_rejected :
  model_fn zero_vars [(INPUT_TENSOR_NAME, zero_batch)] None
    ModeKeys.EVAL params =
  Raise (ValueError "labels must not be None.").
Proof.
  apply (model_fn_no_labels _ _ _ _ zero_batch); [reflexivity|].
  discriminate.
Qed.

Example missing_features_are_rejected :
  model_fn zero_vars [("x", zero_batch)] None ModeKeys.PREDICT params =
  Raise (KeyError INPUT_TENSOR_NAME).
Proof. reflexivity. Qed.

(** C5, as the code has it.  Outside PREDICT mode missing labels make
    the loss fail, and the error reaches the caller.  The length of the
    feature rows is not validated: the first layer builds its kernel for
    the rows it is given, so [model_fn] returns a spec for rows of any
    length, in PREDICT mode and, with as many labels as rows, in every
    other mode; only restoring variables that were saved for rows of
    length 7 fails, after [model_fn] has returned.  The mode is not
    validated either: every value other than PREDICT, inside the
    enumeration or not, takes the TRAIN/EVAL path and yields a spec
    carrying that value as its tag. *)
Theorem input_contract vs features md params X :
  getitem features INPUT_TENSOR_NAME = Ok X ->
  vars_shaped vs ->
  md <> ModeKeys.PREDICT ->
  model_fn vs features None md params =
    Raise (ValueError "labels must not be None.")
  /\ (forall ls lr,
        length ls = length X ->
        has_learning_rate params lr ->
        exists spec,
          model_fn vs features (Some ls) md params = Ok spec
          /\ mode spec = md
          /\ (batch_shaped 7 X ->
              invoke vs features (Some ls) md params =
                Ok (spec, run vs spec))
          /\ (~ batch_shaped 7 X ->
              invoke vs features (Some ls) md params =
                Raise (InvalidArgumentError
                         "Assign requires shapes of both tensors to match.")))
  /\ (forall labels,
        exists spec,
          model_fn vs features labels ModeKeys.PREDICT params = Ok spec
          /\ mode spec = ModeKeys.PREDICT).
Proof.
  intros HX Hv Hmode. split; [|split].
  - exact (model_fn_no_labels vs features md params X HX Hmode).
  - intros ls lr Hl Hlr.
    destruct (model_fn_not_predict_rows vs features ls params X lr
                HX Hv Hl Hlr) as (l & op & m & _ & _ & _ & Hspec).
    eexists. split; [exact (Hspec md Hmode)|]. split; [reflexivity|]. split.
    + intros Hb. exact (invoke_ok _ _ _ _ _ X _ HX Hb Hv (Hspec md Hmode)).
    + intros Hb. unfold invoke. rewrite (Hspec md Hmode). cbn [bind].
      now rewrite (restore_malformed vs features X HX Hv Hb).
  - intros labels. eexists.
    rewrite (model_fn_graph _ _ _ _ _ X HX). cbv zeta.
    split; reflexivity.
Qed.

Lemma input_contract_witness :
  model_fn zero_vars [(INPUT_TENSOR_NAME, [[0; 0; 0]])] None "serve" params =
    Raise (ValueError "labels must not be None.")
  /\ (forall ls lr,
        length ls = length [[0; 0; 0]] ->
        has_learning_rate params lr ->
        exists spec,
          model_fn zero_vars [(INPUT_TENSOR_NAME, [[0; 0; 0]])] (Some ls)
            "serve" params = Ok spec
          /\ mode spec = "serve"
          /\ (batch_shaped 7 [[0; 0; 0]] ->
              invoke zero_vars [(INPUT_TENSOR_NAME, [[0; 0; 0]])] (Some ls)
                "serve" params = Ok (spec, run zero_vars spec))
          /\ (~ batch_shaped 7 [[0; 0; 0]] ->
              invoke zero_vars [(INPUT_TENSOR_NAME, [[0; 0; 0]])] (Some ls)
                "serve" params =
                Raise (InvalidArgumentError
                         "Assign requires shapes of both tensors to match.")))
  /\ (forall labels,
        exists spec,
          model_fn zero_vars [(INPUT_TENSOR_NAME, [[0; 0; 0]])] labels
            ModeKeys.PREDICT params = Ok spec
          /\ mode spec = ModeKeys.PREDICT).
Proof.
  apply (input_contract zero_vars [(INPUT_TENSOR_NAME, [[0; 0; 0]])]
           "serve" params [[0; 0; 0]]).
  - reflexivity.
  - exact (zero_vars_shaped 0).
  - discriminate.
Defined.

(** C5 as stated fails: a mode outside {TRAIN, EVAL, PREDICT} raises no
    error; the invocation returns a spec. *)
Lemma invalid_mode_is_accepted :
  "serve" <> ModeKeys.TRAIN /\ "serve" <> ModeKeys.EVAL
  /\ "serve" <> ModeKeys.PREDICT
  /\ (exists spec,
        model_fn zero_vars [(INPUT_TENSOR_NAME, zero_batch)] (Some [3%Z])
          "serve" params = Ok spec)
  /\ (forall e,
        model_fn zero_vars [(INPUT_TENSOR_NAME, zero_batch)] (Some [3%Z])
          "serve" params <> Raise e).
Proof.
  do 3 (split; [discriminate|]).
  destruct (model_fn_not_predict zero_vars
              [(INPUT_TENSOR_NAME, zero_batch)] [3%Z] params zero_batch
              LEARNING_RATE eq_refl zero_batch_shaped (zero_vars_shaped 0)
              eq_refl params_learning_rate)
    as (l & op & m & _ & _ & _ & Hspec).
  assert (Hne : "serve" <> ModeKeys.PREDICT) by discriminate.
  split.
  - eexists. exact (Hspec "serve" Hne).
  - intros e. rewrite (Hspec "serve" Hne). discriminate.
Qed.

(** ** Prediction does not touch the state *)

(** C6. In PREDICT mode the invocation leaves the whole parameter state
    (the three kernel/bias pairs and the global step) as it was, and a
    second invocation on the same feature batch, started from the state
    the first one left, yields the same prediction vector. *)
Theorem predict_is_pure vs features labels1 labels2 params1 params2 X :
  getitem features INPUT_TENSOR_NAME = Ok X ->
  batch_shaped 7 X -> vars_shaped vs ->
  exists spec1 vs1 spec2 vs2 p,
    invoke vs features labels1 ModeKeys.PREDICT params1 = Ok (spec1, vs1)
    /\ vs1 = vs
    /\ invoke vs1 features labels2 ModeKeys.PREDICT params2 = Ok (spec2, vs2)
    /\ vs2 = vs
    /\ getitem (predictions spec1) "ages" = Ok p
    /\ getitem (predictions spec2) "ages" = Ok p
    /\ value p = predict vs X.
Proof.
  intros HX Hb Hv.
  pose proof (model_fn_predict_net vs features labels1 params1 X HX Hb Hv)
    as Hm1.
  pose proof (model_fn_predict_net vs features labels2 params2 X HX Hb Hv)
    as Hm2.
  do 2 eexists.
  exists (mkEstimatorSpec ModeKeys.PREDICT [("ages", net vs X)] None None []
            (Some [(SIGNATURE_NAME, mkPredictOutput [("ages", net vs X)])])),
    vs, (net vs X).
  rewrite (invoke_ok _ _ _ _ _ X _ HX Hb Hv Hm1).
  split; [reflexivity|]. split; [reflexivity|].
  change (run vs _) with vs.
  rewrite (invoke_ok _ _ _ _ _ X _ HX Hb Hv Hm2).
  repeat split.
Qed.

Lemma predict_is_pure_witness :
  exists spec1 vs1 spec2 vs2 p,
    invoke zero_vars [(INPUT_TENSOR_NAME, zero_batch)] None
      ModeKeys.PREDICT [] = Ok (spec1, vs1)
    /\ vs1 = zero_vars
    /\ invoke vs1 [(INPUT_TENSOR_NAME, zero_batch)] (Some [3%Z])
         ModeKeys.PREDICT params = Ok (spec2, vs2)
    /\ vs2 = zero_vars
    /\ getitem (predictions spec1) "ages" = Ok p
    /\ getitem (predictions spec2) "ages" = Ok p
    /\ value p = predict zero_vars zero_batch.
Proof.
  apply (predict_is_pure zero_vars [(INPUT_TENSOR_NAME, zero_batch)]
           None (Some [3%Z]) [] params zero_batch).
  - reflexivity.
  - exact zero_batch_shaped.
  - exact (zero_vars_shaped 0).
Defined.

(** ** The training operation *)

Lemma Forall_map2 {A B C : Type} (P : C -> Prop) (f : A -> B -> C)
    (u : list A) (v : list B) :
  (forall a b, In a u -> In b v -> P (f a b)) -> Forall P (map2 f u v).
Proof.
  revert v; induction u as [|a u IH]; intros [|b v] H; simpl;
    constructor.
  - apply H; now left.
  - apply IH. intros a' b' Ha Hb. apply H; now right.
Qed.

Lemma zeros_matrix_shaped (d units : nat) :
  mat_shaped d units (repeat (zeros units) d).
Proof.
  split; [apply repeat_length|].
  apply Forall_forall. intros r Hr. apply repeat_spec in Hr. subst.
  apply zeros_length.
Qed.

Lemma map2_shaped (f : R -> R -> R) (d units : nat) (A B : Matrix) :
  mat_shaped d units A -> mat_shaped d units B ->
  mat_shaped d units (map2 (map2 f) A B).
Proof.
  intros (HA & HrA) (HB & HrB). split.
  - rewrite map2_length. unfold Matrix, Vector in *. rewrite HA, HB.
    apply Nat.min_id.
  - apply Forall_map2. intros a b Ha Hb. rewrite map2_length.
    rewrite (proj1 (Forall_forall _ _) HrA a Ha).
    rewrite (proj1 (Forall_forall _ _) HrB b Hb). apply Nat.min_id.
Qed.

Lemma mscale_shaped (c : R) (d units : nat) (A : Matrix) :
  mat_shaped d units A -> mat_shaped d units (mscale c A).
Proof.
  intros (HA & HrA). split.
  - unfold mscale. now rewrite length_map.
  - unfold mscale. apply Forall_map. eapply Forall_impl; [|exact HrA].
    intros r Hr. simpl. now rewrite vscale_length.
Qed.

Lemma outer_shaped (x g : Vector) :
  mat_shaped (length x) (length g) (outer x g).
Proof.
  split; unfold outer.
  - apply length_map.
  - apply Forall_map, Forall_forall. intros xi _. apply vscale_length.
Qed.

Lemma matT_mul_shaped (d units : nat) (X G : Matrix) :
  batch_shaped d X -> batch_shaped units G ->
  mat_shaped d units (matT_mul d units X G).
Proof.
  intros HX; revert G; induction HX as [|x X Hx HX IH]; intros G HG.
  - destruct G; apply zeros_matrix_shaped.
  - destruct HG as [|g G Hg HG]; [apply zeros_matrix_shaped|].
    cbn [matT_mul]. apply (map2_shaped Rplus); [|now apply IH].
    rewrite <- Hx, <- Hg. apply outer_shaped.
Qed.

Lemma colsum_length (units : nat) (G : Matrix) :
  batch_shaped units G -> length (colsum units G) = units.
Proof.
  induction 1 as [|g G Hg HG IH]; [apply zeros_length|].
  change (colsum units (g :: G)) with (vadd g (colsum units G)).
  rewrite vadd_length, Hg, IH. apply Nat.min_id.
Qed.

Lemma sgd_update_shaped (lr : R) (d units : nat) (l g : DenseVars) :
  layer_shaped d units l ->
  mat_shaped d units (kernel g) -> length (bias g) = units ->
  layer_shaped d units (sgd_update lr l g).
Proof.
  intros (Hd & Hr & Hb) HG Hg.
  assert (HK : mat_shaped d units (kernel l)) by (split; assumption).
  destruct (map2_shaped Rminus d units _ _ HK (mscale_shaped lr _ _ _ HG))
    as (H1 & H2).
  unfold layer_shaped, sgd_update. cbn [kernel bias].
  repeat split; try assumption.
  unfold vsub. rewrite map2_length, vscale_length, Hb, Hg.
  apply Nat.min_id.
Qed.

Lemma relu_mask_rows (units : nat) (Z G : Matrix) :
  batch_shaped units Z -> batch_shaped units G ->
  batch_shaped units (relu_mask Z G).
Proof.
  intros HZ HG. apply Forall_map2. intros a b Ha Hb.
  rewrite map2_length.
  rewrite (proj1 (Forall_forall _ _) HZ a Ha).
  rewrite (proj1 (Forall_forall _ _) HG b Hb). apply Nat.min_id.
Qed.

Lemma back_rows (K G : Matrix) : batch_shaped (length K) (back K G).
Proof.
  apply Forall_map, Forall_forall. intros g _. apply length_map.
Qed.

Lemma delta3_rows vs X y : batch_shaped 1 (delta3 vs X y).
Proof. apply Forall_map, Forall_forall. reflexivity. Qed.

Lemma delta2_rows vs X y : vars_shaped vs -> batch_shaped 10 (delta2 vs X y).
Proof.
  intros Hv. pose proof Hv as (_ & H2 & (H3 & _)).
  apply relu_mask_rows.
  - eapply affine_rows; eauto.
  - rewrite <- H3. apply back_rows.
Qed.

Lemma delta1_rows vs X y : vars_shaped vs -> batch_shaped 10 (delta1 vs X y).
Proof.
  intros Hv. pose proof Hv as (H1 & (H2 & _) & _).
  apply relu_mask_rows.
  - eapply affine_rows; eauto.
  - rewrite <- H2. apply back_rows.
Qed.

(** A gradient-descent step keeps the shapes of the parameter state. *)
Lemma sgd_step_shaped lr vs X y :
  vars_shaped vs -> batch_shaped 7 X -> vars_shaped (sgd_step lr vs X y).
Proof.
  intros Hv Hb. pose proof Hv as (H1 & H2 & H3).
  unfold vars_shaped, sgd_step. cbn [var_first_layer var_dense var_dense_1].
  split; [|split]; apply sgd_update_shaped; try assumption;
    cbn [grad_first_layer grad_dense grad_dense_1 kernel bias].
  - apply matT_mul_shaped; [assumption|now apply delta1_rows].
  - apply colsum_length. now apply delta1_rows.
  - apply matT_mul_shaped; [now apply hidden1_rows|now apply delta2_rows].
  - apply colsum_length. now apply delta2_rows.
  - apply matT_mul_shaped; [now apply hidden2_rows|apply delta3_rows].
  - apply colsum_length. apply delta3_rows.
Qed.

Lemma loss_backward_grad (p y : Vector) :
  map2 (fun pi yi => safe_div (1 * (2 * (pi - yi))) (length p)) p y =
  loss_grad p y.
Proof.
  unfold loss_grad. destruct p as [|a p]; [reflexivity|].
  apply map2_ext. intros pi yi. unfold safe_div.
  cbn [length]. unfold Rdiv. ring.
Qed.

Lemma loss_grad_length (p y : Vector) :
  length y = length p -> length (loss_grad p y) = length p.
Proof.
  intros H. unfold loss_grad. rewrite map2_length, H. apply Nat.min_id.
Qed.

Lemma unflatten_singletons (M : Matrix) (g : Vector) :
  Forall (fun r => length r = 1%nat) M -> length g = length M ->
  unflatten M g = map (fun v => [v]) g.
Proof.
  intros HM; revert g; induction HM as [|r M Hr HM IH]; intros [|v g] Hg;
    try discriminate; [reflexivity|].
  cbn [unflatten map]. rewrite Hr. cbn [firstn skipn].
  rewrite IH by (simpl in Hg; lia). reflexivity.
Qed.

Lemma linear_mask_singletons (Z : Matrix) (g : Vector) :
  Forall (fun r => length r = 1%nat) Z -> length g = length Z ->
  map2 (map2 (activate_grad linear)) Z (map (fun v => [v]) g) =
  map (fun v => [v]) g.
Proof.
  intros HZ; revert g; induction HZ as [|r Z Hr HZ IH]; intros [|v g] Hg;
    try discriminate; [reflexivity|].
  cbn [map map2]. rewrite IH by (simpl in Hg; lia).
  destruct r as [|z [|z' r]]; try discriminate. reflexivity.
Qed.

(** Reverse-mode differentiation of the loss tensor yields the layer
    gradients, output layer first. *)
Lemma backward_loss vs X ls l :
  vars_shaped vs -> batch_shaped 7 X -> length ls = length X ->
  mean_squared_error (Some ls) (net vs X) = Ok l ->
  backward l 1 =
  [(dense_1, grad_dense_1 vs X (map to_float ls));
   (dense, grad_dense vs X (map to_float ls));
   (first_layer, grad_first_layer vs X (map to_float ls))].
Proof.
  intros Hv Hb Hl El. pose proof Hv as ((H1 & _) & (H2 & _) & (H3 & _)).
  unfold mean_squared_error in El. rewrite length_map in El.
  destruct (Nat.eqb_spec (length ls) (length (value (net vs X)))) as [E|E];
    [|discriminate].
  inversion El; subst l; clear El. cbn [backward].
  fold (hidden1 vs X). fold (hidden2 vs X). fold (output vs X).
  fold (predict vs X). rewrite net_value in E.
  rewrite loss_backward_grad.
  assert (Hp : length (predict vs X) = length X) by now apply predict_length.
  assert (Ho : length (output vs X) = length X).
  { unfold output, hidden2, hidden1.
    now rewrite !length_map, affine_length, !length_map, affine_length,
      !length_map, affine_length. }
  rewrite unflatten_singletons;
    [|now apply output_rows
     |rewrite loss_grad_length, Hp, Ho; [reflexivity|now rewrite length_map]].
  rewrite linear_mask_singletons;
    [|eapply affine_rows; apply Hv
     |rewrite affine_length, loss_grad_length, Hp;
      [unfold hidden2, hidden1;
       now rewrite !length_map, affine_length, !length_map, affine_length
      |now rewrite length_map]].
  fold (delta3 vs X (map to_float ls)).
  rewrite H1, H2, H3. reflexivity.
Qed.

Lemma apply_gradients_three lr vs g3 g2 g1 :
  apply_gradients lr [(dense_1, g3); (dense, g2); (first_layer, g1)]
    (get_global_step vs) vs =
  mkVars (sgd_update lr (var_first_layer vs) g1)
         (sgd_update lr (var_dense vs) g2)
         (sgd_update lr (var_dense_1 vs) g3)
         (global_step vs + 1).
Proof. reflexivity. Qed.

(** The training operation of a TRAIN invocation is one gradient-descent
    step on the whole state. *)
Lemma model_fn_train vs features ls params X lr :
  getitem features INPUT_TENSOR_NAME = Ok X ->
  batch_shaped 7 X -> vars_shaped vs ->
  length ls = length X ->
  has_learning_rate params lr ->
  exists l m,
    model_fn vs features (Some ls) ModeKeys.TRAIN params =
      Ok (mkEstimatorSpec ModeKeys.TRAIN [] (Some l)
            (Some (mkTrainOp (value l) (sgd_step lr vs X (map to_float ls))))
            [("rmse", m)] None)
    /\ value l = mean_squared (map to_float ls) (predict vs X).
Proof.
  intros HX Hb Hv Hl Hlr.
  destruct (model_fn_not_predict vs features ls params X lr HX Hb Hv Hl Hlr)
    as (l & op & m & El & Eo & _ & Hspec).
  exists l, m. split.
  - rewrite Hspec by discriminate.
    unfold optimize_loss in Eo.
    destruct (Rlt_dec lr 0); [discriminate|].
    cbn [String.eqb Ascii.eqb Bool.eqb] in Eo.
    inversion Eo; subst op; clear Eo.
    rewrite (backward_loss vs X ls l Hv Hb Hl El), apply_gradients_three.
    reflexivity.
  - destruct (mean_squared_error_value _ _ _ El) as (_ & Hval).
    now rewrite net_value, safe_div_mean in Hval.
Qed.

Lemma invoke_train vs features ls params X lr :
  getitem features INPUT_TENSOR_NAME = Ok X ->
  batch_shaped 7 X -> vars_shaped vs ->
  length ls = length X ->
  has_learning_rate params lr ->
  exists spec,
    invoke vs features (Some ls) ModeKeys.TRAIN params =
    Ok (spec, sgd_step lr vs X (map to_float ls)).
Proof.
  intros HX Hb Hv Hl Hlr.
  destruct (model_fn_train vs features ls params X lr HX Hb Hv Hl Hlr)
    as (l & m & Hm & _).
  eexists. exact (invoke_ok _ _ _ _ _ X _ HX Hb Hv Hm).
Qed.


(** ** Gradient descent on an inactive hidden layer *)

Lemma relu_nonpositive (z : Vector) :
  Forall (fun a => a <= 0) z ->
  map (activate relu) z = zeros (length z).
Proof.
  induction 1 as [|a z Ha Hz IH]; [reflexivity|].
  cbn [map length]. rewrite IH. unfold zeros. cbn [repeat activate].
  f_equal. now apply Rmax_left.
Qed.

Lemma vecmat_zero_input (units d : nat) (K : Matrix) :
  Forall (fun r => length r = units) K ->
  vecmat units (zeros d) K = zeros units.
Proof.
  intros HK; revert d; induction HK as [|r K Hr HK IH]; intros [|d];
    try reflexivity.
  cbn [zeros repeat vecmat]. fold (zeros d). rewrite IH.
  replace (vscale 0 r) with (zeros units).
  - apply vadd_zeros_l, zeros_length.
  - rewrite <- Hr. clear. unfold vscale, zeros.
    induction r as [|a r IH]; [reflexivity|].
    cbn [map length repeat]. rewrite <- IH. f_equal. ring.
Qed.

Lemma hidden2_dead vs X :
  vars_shaped vs -> dead vs X ->
  hidden2 vs X = map (fun _ => zeros 10) X.
Proof.
  intros Hv Hd. pose proof Hv as (_ & H2 & _).
  unfold hidden2. unfold dead in Hd.
  pose proof (affine_rows 10 10 _ (hidden1 vs X) H2) as Hr.
  assert (Hlen : length (affine 10 (var_dense vs) (hidden1 vs X)) = length X).
  { unfold hidden1. now rewrite affine_length, length_map, affine_length. }
  revert Hd Hr Hlen.
  generalize (affine 10 (var_dense vs) (hidden1 vs X)) as Z. clear.
  intros Z; revert X; induction Z as [|z Z IH]; intros [|x X] Hd Hr Hlen;
    try discriminate; [reflexivity|].
  inversion Hd; inversion Hr; subst. cbn [map].
  rewrite relu_nonpositive by assumption.
  rewrite (IH X) by (try assumption; simpl in Hlen; lia).
  now replace (length z) with 10%nat.
Qed.

Lemma predict_dead vs X b :
  vars_shaped vs -> dead vs X -> bias (var_dense_1 vs) = [b] ->
  predict vs X = map (fun _ => b) X.
Proof.
  intros Hv Hd Hb. pose proof Hv as (_ & _ & (_ & H3 & _)).
  unfold predict, output. rewrite (hidden2_dead vs X Hv Hd).
  unfold affine. rewrite !map_map. unfold flatten. clear Hd.
  induction X as [|x X IH]; [reflexivity|].
  cbn [map concat]. rewrite IH.
  rewrite (vecmat_zero_input 1 10 _ H3), Hb.
  cbn. f_equal. ring.
Qed.

Lemma relu_mask_dead (Z G : Matrix) :
  Forall (Forall (fun z => z <= 0)) Z -> allzero (relu_mask Z G).
Proof.
  intros HZ. apply Forall_map2. intros z g Hz _.
  apply Forall_map2. intros a b Ha _.
  pose proof (proj1 (Forall_forall _ _)
                (proj1 (Forall_forall _ _) HZ z Hz) a Ha) as Hle.
  cbn [activate_grad]. destruct (Rlt_dec 0 a); [lra|reflexivity].
Qed.

Lemma relu_mask_allzero (Z G : Matrix) :
  allzero G -> allzero (relu_mask Z G).
Proof.
  intros HG. apply Forall_map2. intros z g _ Hg.
  apply Forall_map2. intros a b _ Hb.
  pose proof (proj1 (Forall_forall _ _)
                (proj1 (Forall_forall _ _) HG g Hg) b Hb) as H0.
  cbn [activate_grad]. destruct (Rlt_dec 0 a); [exact H0|reflexivity].
Qed.

Lemma dot_zero_l (g k : Vector) : Forall (fun a => a = 0) g -> dot g k = 0.
Proof.
  intros Hg; revert k; induction Hg as [|a g Ha Hg IH]; intros [|b k];
    try reflexivity.
  unfold dot in *. cbn [map2 vsum fold_right].
  fold (vsum (map2 Rmult g k)). rewrite IH, Ha. ring.
Qed.

Lemma back_allzero (K G : Matrix) : allzero G -> allzero (back K G).
Proof.
  intros HG. apply Forall_map. eapply Forall_impl; [|exact HG].
  intros g Hg. apply Forall_map, Forall_forall. intros k _.
  now apply dot_zero_l.
Qed.

Lemma vscale_zero_vector (c : R) (g : Vector) :
  Forall (fun a => a = 0) g -> Forall (fun a => a = 0) (vscale c g).
Proof.
  intros Hg. apply Forall_map. eapply Forall_impl; [|exact Hg].
  intros a Ha. simpl in *. subst. ring.
Qed.

Lemma vadd_zero_vectors (u v : Vector) :
  Forall (fun a => a = 0) u -> Forall (fun a => a = 0) v ->
  Forall (fun a => a = 0) (vadd u v).
Proof.
  intros Hu Hv. apply Forall_map2. intros a b Ha Hb.
  rewrite (proj1 (Forall_forall _ _) Hu a Ha).
  rewrite (proj1 (Forall_forall _ _) Hv b Hb). ring.
Qed.

Lemma zeros_zero (n : nat) : Forall (fun a => a = 0) (zeros n).
Proof.
  apply Forall_forall. intros a Ha. now apply repeat_spec in Ha.
Qed.

Lemma zeros_matrix_allzero (d units : nat) :
  allzero (repeat (zeros units) d).
Proof.
  apply Forall_forall. intros r Hr. apply repeat_spec in Hr. subst.
  apply zeros_zero.
Qed.

Lemma madd_allzero (A B : Matrix) :
  allzero A -> allzero B -> allzero (madd A B).
Proof.
  intros HA HB. apply Forall_map2. intros a b Ha Hb.
  apply vadd_zero_vectors.
  - exact (proj1 (Forall_forall _ _) HA a Ha).
  - exact (proj1 (Forall_forall _ _) HB b Hb).
Qed.

Lemma matT_mul_allzero_G (d units : nat) (X G : Matrix) :
  allzero G -> allzero (matT_mul d units X G).
Proof.
  intros HG; revert X; induction HG as [|g G Hg HG IH]; intros [|x X];
    try apply zeros_matrix_allzero.
  cbn [matT_mul]. apply madd_allzero; [|apply IH].
  apply Forall_map, Forall_forall. intros xi _.
  now apply vscale_zero_vector.
Qed.

Lemma matT_mul_allzero_X (d units : nat) (X G : Matrix) :
  allzero X -> allzero (matT_mul d units X G).
Proof.
  intros HX; revert G; induction HX as [|x X Hx HX IH]; intros [|g G];
    try apply zeros_matrix_allzero.
  cbn [matT_mul]. apply madd_allzero; [|apply IH].
  apply Forall_map. eapply Forall_impl; [|exact Hx].
  intros xi Hxi. simpl in Hxi. subst.
  apply Forall_map, Forall_forall. intros a _. ring.
Qed.

Lemma colsum_allzero (units : nat) (G : Matrix) :
  allzero G -> Forall (fun a => a = 0) (colsum units G).
Proof.
  induction 1 as [|g G Hg HG IH]; [apply zeros_zero|].
  change (colsum units (g :: G)) with (vadd g (colsum units G)).
  now apply vadd_zero_vectors.
Qed.

Lemma vsub_zero (lr : R) (b g : Vector) :
  length g = length b -> Forall (fun a => a = 0) g ->
  vsub b (vscale lr g) = b.
Proof.
  intros Hl Hg; revert b Hl; induction Hg as [|a g Ha Hg IH]; intros [|c b] Hl;
    try discriminate; [reflexivity|].
  unfold vsub, vscale in *. cbn [map map2].
  rewrite IH by (simpl in Hl; lia). subst a. f_equal. ring.
Qed.

Lemma msub_zero (lr : R) (d units : nat) (K G : Matrix) :
  mat_shaped d units K -> mat_shaped d units G -> allzero G ->
  msub K (mscale lr G) = K.
Proof.
  intros (HK & HrK) (HG & HrG) H0. subst d.
  revert K HG HrK; induction H0 as [|g G Hg H0 IH]; intros [|k K] HG HrK;
    try discriminate; [reflexivity|].
  inversion HrG; inversion HrK; subst.
  unfold msub, mscale in *. cbn [map map2].
  rewrite IH by (try assumption; simpl in HG; lia).
  rewrite vsub_zero by (try assumption; congruence). reflexivity.
Qed.

Lemma sgd_update_zero (lr : R) (d units : nat) (l g : DenseVars) :
  layer_shaped d units l ->
  mat_shaped d units (kernel g) -> allzero (kernel g) ->
  length (bias g) = units -> Forall (fun a => a = 0) (bias g) ->
  sgd_update lr l g = l.
Proof.
  intros (Hd & Hr & Hb) HG H0 Hg Hg0. destruct l as [K b].
  unfold sgd_update. cbn [kernel bias] in *.
  rewrite (msub_zero lr d units) by (try assumption; now split).
  rewrite vsub_zero by (try assumption; congruence). reflexivity.
Qed.

Lemma colsum_singletons (v : Vector) :
  colsum 1 (map (fun g => [g]) v) = [vsum v].
Proof.
  induction v as [|a v IH]; [reflexivity|].
  cbn [map]. change (colsum 1 ([a] :: map (fun g => [g]) v))
    with (vadd [a] (colsum 1 (map (fun g => [g]) v))).
  rewrite IH. reflexivity.
Qed.

Lemma allzero_zero_rows {A : Type} (n : nat) (X : list A) :
  allzero (map (fun _ => zeros n) X).
Proof.
  apply Forall_map, Forall_forall. intros x _. apply zeros_zero.
Qed.

(** On a batch that leaves the second hidden layer inactive, a training
    step moves the output bias only. *)
Lemma sgd_step_dead lr vs X y b :
  vars_shaped vs -> batch_shaped 7 X -> dead vs X ->
  bias (var_dense_1 vs) = [b] ->
  sgd_step lr vs X y =
  mkVars (var_first_layer vs) (var_dense vs)
         (mkDense (kernel (var_dense_1 vs))
                  [b - lr * vsum (loss_grad (predict vs X) y)])
         (global_step vs + 1).
Proof.
  intros Hv Hb Hd Hbias. pose proof Hv as (H1 & H2 & H3).
  assert (Hd2 : allzero (delta2 vs X y)) by now apply relu_mask_dead.
  assert (Hd1 : allzero (delta1 vs X y))
    by now apply relu_mask_allzero, back_allzero.
  unfold sgd_step. f_equal.
  - apply (sgd_update_zero lr 7 10); cbn [grad_first_layer kernel bias];
      try assumption.
    + apply matT_mul_shaped; [assumption|now apply delta1_rows].
    + now apply matT_mul_allzero_G.
    + apply colsum_length. now apply delta1_rows.
    + now apply colsum_allzero.
  - apply (sgd_update_zero lr 10 10); cbn [grad_dense kernel bias];
      try assumption.
    + apply matT_mul_shaped; [now apply hidden1_rows|now apply delta2_rows].
    + now apply matT_mul_allzero_G.
    + apply colsum_length. now apply delta2_rows.
    + now apply colsum_allzero.
  - destruct H3 as (Hk & Hr & _).
    unfold sgd_update, grad_dense_1. cbn [kernel bias]. f_equal.
    + apply (msub_zero lr 10 1); [now split| |].
      * apply matT_mul_shaped; [now apply hidden2_rows|apply delta3_rows].
      * apply matT_mul_allzero_X. rewrite hidden2_dead by assumption.
        apply allzero_zero_rows.
    + unfold delta3. rewrite colsum_singletons, Hbias. reflexivity.
Qed.

Lemma dead_sgd_step lr vs X y :
  dead vs X ->
  var_first_layer (sgd_step lr vs X y) = var_first_layer vs ->
  var_dense (sgd_step lr vs X y) = var_dense vs ->
  dead (sgd_step lr vs X y) X.
Proof.
  intros Hd E1 E2. unfold dead, hidden1 in *. now rewrite E1, E2.
Qed.

Lemma mean_squared_const (y : Vector) (X : Matrix) (c : R) :
  length y = length X ->
  mean_squared y (map (fun _ => c) X) =
  vsum (map (fun yi => (yi - c) ^ 2) y) / INR (length y).
Proof.
  intros Hl. rewrite mean_squared_vsum, length_map, <- Hl. f_equal.
  revert X Hl; induction y as [|a y IH]; intros [|x X] Hl; try discriminate;
    [reflexivity|].
  cbn [map map2 vsum fold_right].
  fold (vsum (map2 (fun yi pi => (yi - pi) ^ 2) y (map (fun _ => c) X))).
  fold (vsum (map (fun yi => (yi - c) ^ 2) y)).
  rewrite (IH X) by (simpl in Hl; lia). reflexivity.
Qed.

Lemma vsum_loss_grad_const (y : Vector) (X : Matrix) (b N : R) :
  length y = length X ->
  vsum (map2 (fun pi yi => 2 * (pi - yi) / N) (map (fun _ => b) X) y) =
  2 * (INR (length y) * b - vsum y) / N.
Proof.
  revert X; induction y as [|a y IH]; intros [|x X] Hl; try discriminate.
  - simpl. unfold Rdiv. ring.
  - cbn [map map2 vsum fold_right length].
    fold (vsum (map2 (fun pi yi => 2 * (pi - yi) / N) (map (fun _ => b) X) y)).
    fold (vsum y).
    rewrite (IH X) by (simpl in Hl; lia). rewrite S_INR.
    unfold Rdiv. ring.
Qed.

Lemma sum_squares_shift (y : Vector) (c c' : R) :
  vsum (map (fun yi => (yi - c') ^ 2) y) =
  vsum (map (fun yi => (yi - c) ^ 2) y)
  + 2 * (c - c') * (vsum y - INR (length y) * c)
  + INR (length y) * (c - c') ^ 2.
Proof.
  induction y as [|a y IH].
  - simpl. ring.
  - cbn [map vsum fold_right length].
    fold (vsum (map (fun yi => (yi - c') ^ 2) y)).
    fold (vsum (map (fun yi => (yi - c) ^ 2) y)). fold (vsum y).
    rewrite IH, S_INR. ring.
Qed.

(** The loss before and after a training step on an inactive hidden
    layer: the output bias [b] moves to [b - 2 lr (b - mean y)] and the
    loss changes by [- 4 lr (1 - lr) (b - mean y)^2]. *)
Lemma dead_step_loss lr vs X y b :
  vars_shaped vs -> batch_shaped 7 X -> dead vs X ->
  bias (var_dense_1 vs) = [b] ->
  length y = length X -> X <> [] ->
  mean_squared y (predict (sgd_step lr vs X y) X) =
  mean_squared y (predict vs X)
  - 4 * lr * (1 - lr) * (b - mean y) ^ 2.
Proof.
  intros Hv Hb Hd Hbias Hl Hne.
  assert (Hv' : vars_shaped (sgd_step lr vs X y))
    by now apply sgd_step_shaped.
  assert (Hd' : dead (sgd_step lr vs X y) X).
  { apply dead_sgd_step; [assumption| |];
      now rewrite (sgd_step_dead lr vs X y b). }
  rewrite (predict_dead vs X b Hv Hd Hbias).
  rewrite (predict_dead (sgd_step lr vs X y) X
             (b - lr * vsum (loss_grad (predict vs X) y)) Hv' Hd')
    by now rewrite (sgd_step_dead lr vs X y b).
  rewrite (predict_dead vs X b Hv Hd Hbias).
  unfold loss_grad. rewrite length_map.
  rewrite vsum_loss_grad_const by assumption.
  rewrite !mean_squared_const by assumption.
  rewrite (sum_squares_shift y b
             (b - lr * (2 * (INR (length y) * b - vsum y) / INR (length X)))).
  unfold mean. rewrite <- Hl.
  assert (Hn : INR (length y) <> 0).
  { apply not_0_INR. rewrite Hl. destruct X; [congruence|discriminate]. }
  field. exact Hn.
Qed.

(** A TRAIN invocation followed by a recomputation of the loss on the
    same batch, in any mode that computes a loss. *)
Lemma train_then_recompute vs features ls params X lr md :
  getitem features INPUT_TENSOR_NAME = Ok X ->
  batch_shaped 7 X -> vars_shaped vs ->
  length ls = length X ->
  has_learning_rate params lr ->
  md <> ModeKeys.PREDICT ->
  exists spec l spec' l',
    invoke vs features (Some ls) ModeKeys.TRAIN params =
      Ok (spec, sgd_step lr vs X (map to_float ls))
    /\ loss spec = Some l
    /\ value l = mean_squared (map to_float ls) (predict vs X)
    /\ model_fn (sgd_step lr vs X (map to_float ls)) features (Some ls) md params =
       Ok spec'
    /\ loss spec' = Some l'
    /\ value l' =
       mean_squared (map to_float ls)
         (predict (sgd_step lr vs X (map to_float ls)) X).
Proof.
  intros HX Hb Hv Hl Hlr Hmd.
  destruct (model_fn_train vs features ls params X lr HX Hb Hv Hl Hlr)
    as (l & m & Hm & Hval).
  assert (Hv' : vars_shaped (sgd_step lr vs X (map to_float ls)))
    by now apply sgd_step_shaped.
  destruct (model_fn_not_predict _ features ls params X lr HX Hb Hv' Hl Hlr)
    as (l' & op' & m' & El' & _ & _ & Hspec').
  do 2 eexists. exists (mkEstimatorSpec md [] (Some l') (Some op')
                          [("rmse", m')] None), l'.
  split; [exact (invoke_ok _ _ _ _ _ X _ HX Hb Hv Hm)|].
  split; [reflexivity|]. split; [exact Hval|].
  split; [now apply Hspec'|]. split; [reflexivity|].
  destruct (mean_squared_error_value _ _ _ El') as (_ & Hval').
  now rewrite net_value, safe_div_mean in Hval'.
Qed.

Lemma affine_zero_kernel (d units : nat) (b : Vector) (H : Matrix) :
  length b = units ->
  affine units (mkDense (repeat (zeros units) d) b) H = map (fun _ => b) H.
Proof.
  intros Hb. unfold affine. cbn [kernel bias]. apply map_ext. intros x.
  rewrite vecmat_zero_kernel. now apply vadd_zeros_l.
Qed.

Lemma dead_vars_shaped : vars_shaped dead_vars.
Proof.
  unfold vars_shaped, layer_shaped; simpl.
  repeat split; repeat constructor.
Qed.

Lemma two_rows_shaped : batch_shaped 7 two_rows.
Proof. repeat constructor. Qed.

Lemma dead_vars_dead : dead dead_vars two_rows.
Proof.
  unfold dead. cbn [dead_vars var_dense].
  rewrite affine_zero_kernel by reflexivity.
  apply Forall_map, Forall_forall. intros x _.
  apply Forall_forall. intros a Ha. apply repeat_spec in Ha. lra.
Qed.

Lemma dead_vars_loss :
  mean_squared (map to_float two_labels) (predict dead_vars two_rows) = 1.
Proof.
  rewrite (predict_dead dead_vars two_rows 2 dead_vars_shaped dead_vars_dead
             eq_refl).
  rewrite mean_squared_vsum. unfold two_labels. cbn [map]. labels_exact.
  simpl. field.
Qed.

Lemma dead_vars_mean : mean (map to_float two_labels) = 2.
Proof.
  unfold mean, two_labels. cbn [map]. labels_exact. simpl. field.
Qed.

(** ** A training step on a vanishing gradient *)

Lemma sgd_step_vanishing lr vs X y :
  vars_shaped vs -> batch_shaped 7 X ->
  vanishes (grad_first_layer vs X y) ->
  vanishes (grad_dense vs X y) ->
  vanishes (grad_dense_1 vs X y) ->
  sgd_step lr vs X y =
  mkVars (var_first_layer vs) (var_dense vs) (var_dense_1 vs)
         (global_step vs + 1).
Proof.
  intros Hv Hb (K1 & B1) (K2 & B2) (K3 & B3).
  pose proof Hv as (H1 & H2 & H3).
  unfold sgd_step. f_equal.
  - apply (sgd_update_zero lr 7 10); try assumption;
      cbn [grad_first_layer kernel bias].
    + apply matT_mul_shaped; [assumption|now apply delta1_rows].
    + apply colsum_length. now apply delta1_rows.
  - apply (sgd_update_zero lr 10 10); try assumption;
      cbn [grad_dense kernel bias].
    + apply matT_mul_shaped; [now apply hidden1_rows|now apply delta2_rows].
    + apply colsum_length. now apply delta2_rows.
  - apply (sgd_update_zero lr 10 1); try assumption;
      cbn [grad_dense_1 kernel bias].
    + apply matT_mul_shaped; [now apply hidden2_rows|apply delta3_rows].
    + apply colsum_length. apply delta3_rows.
Qed.

(** With the second hidden layer inactive on the batch, the gradient
    vanishes as soon as the derivatives of the loss in the predictions
    sum to 0. *)
Lemma dead_gradient_vanishes vs X y :
  vars_shaped vs -> batch_shaped 7 X -> dead vs X ->
  vsum (loss_grad (predict vs X) y) = 0 ->
  vanishes (grad_first_layer vs X y)
  /\ vanishes (grad_dense vs X y)
  /\ vanishes (grad_dense_1 vs X y).
Proof.
  intros Hv Hb Hd Hs.
  assert (Hd2 : allzero (delta2 vs X y)) by now apply relu_mask_dead.
  assert (Hd1 : allzero (delta1 vs X y))
    by now apply relu_mask_allzero, back_allzero.
  unfold vanishes. cbn [grad_first_layer grad_dense grad_dense_1 kernel bias].
  split; [|split]; split.
  - now apply matT_mul_allzero_G.
  - now apply colsum_allzero.
  - now apply matT_mul_allzero_G.
  - now apply colsum_allzero.
  - apply matT_mul_allzero_X. rewrite hidden2_dead by assumption.
    apply allzero_zero_rows.
  - unfold delta3. rewrite colsum_singletons, Hs. now constructor.
Qed.

Lemma dead_vars_gradient_vanishes :
  vanishes (grad_first_layer dead_vars two_rows (map to_float two_labels))
  /\ vanishes (grad_dense dead_vars two_rows (map to_float two_labels))
  /\ vanishes (grad_dense_1 dead_vars two_rows (map to_float two_labels)).
Proof.
  apply dead_gradient_vanishes;
    [exact dead_vars_shaped|exact two_rows_shaped|exact dead_vars_dead|].
  rewrite (predict_dead dead_vars two_rows 2 dead_vars_shaped dead_vars_dead
             eq_refl).
  unfold loss_grad. rewrite length_map.
  rewrite vsum_loss_grad_const by reflexivity.
  unfold two_labels. cbn [map]. labels_exact. simpl. field.
Qed.

(** C8, as the code has it.  A non-zero loss does not make a training
    step lower the loss.  On a batch on which the gradient of the loss,
    as the training step computes it, is zero in every entry, a TRAIN
    invocation with any learning rate leaves every kernel and bias as it
    was, and the loss recomputed on the same batch is the loss before
    the step, whatever its value. *)
Theorem zero_gradient_step_keeps_loss vs features ls params X lr :
  getitem features INPUT_TENSOR_NAME = Ok X ->
  batch_shaped 7 X -> vars_shaped vs ->
  length ls = length X ->
  has_learning_rate params lr ->
  vanishes (grad_first_layer vs X (map to_float ls)) ->
  vanishes (grad_dense vs X (map to_float ls)) ->
  vanishes (grad_dense_1 vs X (map to_float ls)) ->
  exists spec l vs' spec' l',
    invoke vs features (Some ls) ModeKeys.TRAIN params = Ok (spec, vs')
    /\ loss spec = Some l
    /\ var_first_layer vs' = var_first_layer vs
    /\ var_dense vs' = var_dense vs
    /\ var_dense_1 vs' = var_dense_1 vs
    /\ model_fn vs' features (Some ls) ModeKeys.EVAL params = Ok spec'
    /\ loss spec' = Some l'
    /\ value l' = value l.
Proof.
  intros HX Hb Hv Hl Hlr G1 G2 G3.
  assert (Hmd : ModeKeys.EVAL <> ModeKeys.PREDICT) by discriminate.
  destruct (train_then_recompute vs features ls params X lr ModeKeys.EVAL
              HX Hb Hv Hl Hlr Hmd)
    as (spec & l & spec' & l' & Hi & Hls & Hval & Hm & Hls' & Hval').
  exists spec, l, (sgd_step lr vs X (map to_float ls)), spec', l'.
  split; [exact Hi|]. split; [exact Hls|].
  rewrite (sgd_step_vanishing lr vs X (map to_float ls) Hv Hb G1 G2 G3)
    in Hm, Hval' |- *.
  do 3 (split; [reflexivity|]). split; [exact Hm|]. split; [exact Hls'|].
  rewrite Hval', Hval. reflexivity.
Qed.

Lemma zero_gradient_step_keeps_loss_witness :
  exists spec l vs' spec' l',
    invoke dead_vars [(INPUT_TENSOR_NAME, two_rows)] (Some two_labels)
      ModeKeys.TRAIN params = Ok (spec, vs')
    /\ loss spec = Some l
    /\ var_first_layer vs' = var_first_layer dead_vars
    /\ var_dense vs' = var_dense dead_vars
    /\ var_dense_1 vs' = var_dense_1 dead_vars
    /\ model_fn vs' [(INPUT_TENSOR_NAME, two_rows)] (Some two_labels)
         ModeKeys.EVAL params = Ok spec'
    /\ loss spec' = Some l'
    /\ value l' = value l.
Proof.
  apply (zero_gradient_step_keeps_loss dead_vars
           [(INPUT_TENSOR_NAME, two_rows)] two_labels params two_rows
           LEARNING_RATE).
  - reflexivity.
  - exact two_rows_shaped.
  - exact dead_vars_shaped.
  - reflexivity.
  - exact params_learning_rate.
  - exact (proj1 dead_vars_gradient_vanishes).
  - exact (proj1 (proj2 dead_vars_gradient_vanishes)).
  - exact (proj2 (proj2 dead_vars_gradient_vanishes)).
Defined.

(** C8 as stated fails.  At [dead_vars] the batch [two_rows] with labels
    1 and 3 has loss 1, yet the output bias already equals the mean label
    and the hidden units are inactive, so the gradient vanishes: for
    every positive learning rate the training step leaves the loss,
    recomputed on the same batch, at 1. *)
Lemma nonzero_loss_without_decrease :
  vars_shaped dead_vars /\ batch_shaped 7 two_rows
  /\ forall lr,
       0 < lr ->
       exists spec l vs' spec' l',
         invoke dead_vars [(INPUT_TENSOR_NAME, two_rows)] (Some two_labels)
           ModeKeys.TRAIN [("learning_rate", lr)] = Ok (spec, vs')
         /\ loss spec = Some l
         /\ value l = 1
         /\ model_fn vs' [(INPUT_TENSOR_NAME, two_rows)] (Some two_labels)
              ModeKeys.EVAL [("learning_rate", lr)] = Ok spec'
         /\ loss spec' = Some l'
         /\ value l' = 1
         /\ ~ value l' < value l.
Proof.
  split; [exact dead_vars_shaped|]. split; [exact two_rows_shaped|].
  intros lr Hpos.
  assert (Hne : ModeKeys.EVAL <> ModeKeys.PREDICT) by discriminate.
  assert (Hlr : has_learning_rate [("learning_rate", lr)] lr)
    by (split; [reflexivity|lra]).
  destruct (train_then_recompute dead_vars
              [(INPUT_TENSOR_NAME, two_rows)] two_labels
              [("learning_rate", lr)] two_rows lr ModeKeys.EVAL
              eq_refl two_rows_shaped dead_vars_shaped eq_refl Hlr Hne)
    as (spec & l & spec' & l' & Hi & Hl & Hv & Hm & Hl' & Hv').
  exists spec, l, (sgd_step lr dead_vars two_rows (map to_float two_labels)),
    spec', l'.
  rewrite (dead_step_loss lr dead_vars two_rows (map to_float two_labels) 2
             dead_vars_shaped two_rows_shaped dead_vars_dead eq_refl eq_refl)
    in Hv' by discriminate.
  rewrite dead_vars_loss, dead_vars_mean in Hv'. rewrite dead_vars_loss in Hv.
  assert (E' : value l' = 1) by (rewrite Hv'; ring).
  repeat (split; [assumption|]). rewrite E', Hv. lra.
Qed.

(** ** Derivatives of real functions at 0 *)










(** ** Derivatives of vector- and matrix-valued functions *)

Lemma Dlist_ext (F G : R -> Vector) (F' : Vector) :
  (forall t, F t = G t) -> Dlist F F' -> Dlist G F'.
Proof.
  intros H HF. destruct HF as [F E|F f F1 a F1' E Hf HF1].
  - apply Dnil. intros t. now rewrite <- H.
  - apply (Dcons G f F1); try assumption. intros t. now rewrite <- H.
Qed.



Lemma Dmat_length (F : R -> Matrix) (F' : Matrix) :
  Dmat F F' -> forall t, length (F t) = length F'.
Proof.
  induction 1 as [F E|F f F1 a F1' E Hf HF1 IH]; intros t; rewrite E;
    [reflexivity|].
  simpl. now rewrite IH.
Qed.






Lemma Dlist_linear (F : R -> Vector) (F' : Vector) :
  Dlist F F' -> Dlist (fun t => map (activate linear) (F t)) F'.
Proof.
  apply Dlist_ext. intros t. symmetry. cbn [activate]. apply map_id.
Qed.














Lemma vadd_line_0 (b d : Vector) :
  length d = length b -> vadd b (vscale 0 d) = b.
Proof.
  revert d; induction b as [|a b IH]; intros [|c d] Hl; try discriminate;
    [reflexivity|].
  unfold vadd, vscale in *. cbn [map map2].
  rewrite IH by (simpl in Hl; lia). f_equal. ring.
Qed.

Lemma madd_line_0 (d units : nat) (K D : Matrix) :
  mat_shaped d units K -> mat_shaped d units D ->
  madd K (mscale 0 D) = K.
Proof.
  intros (HK & HrK) (HD & HrD). subst d.
  revert D HD HrD; induction HrK as [|k K Hk HrK IH]; intros [|r D] HD HrD;
    try discriminate; [reflexivity|].
  inversion HrD; subst. unfold madd, mscale in *. cbn [map map2].
  rewrite IH by (try assumption; simpl in HD; lia).
  rewrite vadd_line_0 by congruence. reflexivity.
Qed.

Lemma shift_layer_0 (d units : nat) (l l' : DenseVars) :
  layer_shaped d units l -> layer_shaped d units l' ->
  shift_layer 0 l l' = l.
Proof.
  intros (Hd & Hr & Hb) (Hd' & Hr' & Hb'). destruct l as [K b].
  unfold shift_layer. cbn [kernel bias] in *.
  rewrite (madd_line_0 d units) by (split; assumption).
  rewrite vadd_line_0 by congruence. reflexivity.
Qed.






(** ** Inner products and the adjoint of a dense layer *)

































(** ** The update of the optimizer, entry by entry *)






(** ** The training step of a TRAIN invocation *)



(** ** A gradient step as a move along the opposite of the gradient *)

Lemma vsub_as_vadd (lr : R) (b g : Vector) :
  vsub b (vscale lr g) = vadd b (vscale lr (map Ropp g)).
Proof.
  unfold vsub, vadd, vscale.
  revert g; induction b as [|a b IH]; intros [|c g]; try reflexivity.
  cbn [map map2]. rewrite IH. f_equal. ring.
Qed.

Lemma sgd_update_shift (lr : R) (l g : DenseVars) :
  sgd_update lr l g = shift_layer lr l (opp_layer g).
Proof.
  unfold sgd_update, shift_layer, opp_layer. cbn [kernel bias].
  rewrite vsub_as_vadd. f_equal.
  unfold msub, madd, mscale.
  generalize (kernel l) as K, (kernel g) as G.
  induction K as [|k K IH]; intros [|r G]; try reflexivity.
  cbn [map map2]. rewrite IH. f_equal. apply vsub_as_vadd.
Qed.

Lemma opp_layer_shaped (d units : nat) (l : DenseVars) :
  layer_shaped d units l -> layer_shaped d units (opp_layer l).
Proof.
  intros (Hd & Hr & Hb). unfold layer_shaped, opp_layer. cbn [kernel bias].
  rewrite !length_map. repeat split; try assumption.
  apply Forall_map. eapply Forall_impl; [|exact Hr].
  intros r Hl. simpl. now rewrite length_map.
Qed.

Lemma gradient_shaped vs X y :
  vars_shaped vs -> batch_shaped 7 X -> vars_shaped (gradient vs X y).
Proof.
  intros Hv Hb. unfold vars_shaped, layer_shaped, gradient.
  cbn [var_first_layer var_dense var_dense_1 grad_first_layer grad_dense
         grad_dense_1 kernel bias].
  pose proof (matT_mul_shaped 7 10 X _ Hb (delta1_rows vs X y Hv)) as (? & ?).
  pose proof (matT_mul_shaped 10 10 _ _ (hidden1_rows vs X Hv)
                (delta2_rows vs X y Hv)) as (? & ?).
  pose proof (matT_mul_shaped 10 1 _ _ (hidden2_rows vs X Hv)
                (delta3_rows vs X y)) as (? & ?).
  pose proof (colsum_length 10 _ (delta1_rows vs X y Hv)).
  pose proof (colsum_length 10 _ (delta2_rows vs X y Hv)).
  pose proof (colsum_length 1 _ (delta3_rows vs X y)).
  repeat split; assumption.
Qed.

Lemma opp_vars_shaped g : vars_shaped g -> vars_shaped (opp_vars g).
Proof.
  intros (H1 & H2 & H3). unfold vars_shaped, opp_vars.
  cbn [var_first_layer var_dense var_dense_1].
  split; [|split]; now apply opp_layer_shaped.
Qed.

(** * More about [model_fn] *)

(** ** Rows are predicted independently *)

Lemma affine_app (units : nat) (l : DenseVars) (X1 X2 : Matrix) :
  affine units l (X1 ++ X2)%list =
  (affine units l X1 ++ affine units l X2)%list.
Proof. unfold affine. apply map_app. Qed.

Lemma predict_app vs (X1 X2 : Matrix) :
  predict vs (X1 ++ X2)%list = (predict vs X1 ++ predict vs X2)%list.
Proof.
  unfold predict, output, hidden2, hidden1, flatten.
  now rewrite affine_app, map_app, affine_app, map_app, affine_app, map_app,
    concat_app.
Qed.

Lemma batch_shaped_app (d : nat) (X1 X2 : Matrix) :
  batch_shaped d X1 -> batch_shaped d X2 -> batch_shaped d (X1 ++ X2)%list.
Proof. intros H1 H2. apply Forall_app. now split. Qed.

(** X2. The predictions for a batch made of two batches are the predictions
    for the first followed by those for the second: what [model_fn]
    predicts for a row does not depend on the rows it is batched with. *)
Theorem predictions_of_joined_batches vs f1 f2 f labels params X1 X2 :
  getitem f1 INPUT_TENSOR_NAME = Ok X1 ->
  getitem f2 INPUT_TENSOR_NAME = Ok X2 ->
  getitem f INPUT_TENSOR_NAME = Ok (X1 ++ X2)%list ->
  batch_shaped 7 X1 -> batch_shaped 7 X2 -> vars_shaped vs ->
  exists s1 s2 s p1 p2 p,
    model_fn vs f1 labels ModeKeys.PREDICT params = Ok s1
    /\ model_fn vs f2 labels ModeKeys.PREDICT params = Ok s2
    /\ model_fn vs f labels ModeKeys.PREDICT params = Ok s
    /\ getitem (predictions s1) "ages" = Ok p1
    /\ getitem (predictions s2) "ages" = Ok p2
    /\ getitem (predictions s) "ages" = Ok p
    /\ value p = (value p1 ++ value p2)%list.
Proof.
  intros E1 E2 E Hb1 Hb2 Hv.
  do 3 eexists. exists (net vs X1), (net vs X2), (net vs (X1 ++ X2)%list).
  split; [exact (model_fn_predict_net vs f1 labels params X1 E1 Hb1 Hv)|].
  split; [exact (model_fn_predict_net vs f2 labels params X2 E2 Hb2 Hv)|].
  split; [exact (model_fn_predict_net vs f labels params _ E
                   (batch_shaped_app 7 X1 X2 Hb1 Hb2) Hv)|].
  do 3 (split; [reflexivity|]).
  rewrite !net_value. apply predict_app.
Qed.

Lemma predictions_of_joined_batches_witness :
  exists s1 s2 s p1 p2 p,
    model_fn zero_vars [(INPUT_TENSOR_NAME, zero_batch)] None
      ModeKeys.PREDICT params = Ok s1
    /\ model_fn zero_vars [(INPUT_TENSOR_NAME, two_rows)] None
         ModeKeys.PREDICT params = Ok s2
    /\ model_fn zero_vars [(INPUT_TENSOR_NAME, (zero_batch ++ two_rows)%list)]
         None ModeKeys.PREDICT params = Ok s
    /\ getitem (predictions s1) "ages" = Ok p1
    /\ getitem (predictions s2) "ages" = Ok p2
    /\ getitem (predictions s) "ages" = Ok p
    /\ value p = (value p1 ++ value p2)%list.
Proof.
  apply (predictions_of_joined_batches zero_vars
           [(INPUT_TENSOR_NAME, zero_batch)] [(INPUT_TENSOR_NAME, two_rows)]
           [(INPUT_TENSOR_NAME, (zero_batch ++ two_rows)%list)] None params
           zero_batch two_rows).
  - reflexivity.
  - reflexivity.
  - reflexivity.
  - exact zero_batch_shaped.
  - exact two_rows_shaped.
  - exact (zero_vars_shaped 0).
Defined.

(** ** Training steps that move no weight *)

Lemma predict_zero_batch gs :
  predict (mkVars (zero_layer 7 10) (zero_layer 10 10) (zero_layer 10 1) gs)
    zero_batch = [0].
Proof.
  unfold predict, output, hidden2, hidden1.
  cbn [var_first_layer var_dense var_dense_1].
  rewrite !affine_zero_layer. reflexivity.
Qed.

Lemma delta3_allzero vs X y :
  Forall (fun a => a = 0) (loss_grad (predict vs X) y) ->
  allzero (delta3 vs X y).
Proof.
  intros H. unfold delta3. apply Forall_map.
  eapply Forall_impl; [|exact H]. intros a Ha. now constructor.
Qed.

(** Without a gradient in the predictions no variable moves. *)
Lemma sgd_step_no_gradient lr vs X y :
  vars_shaped vs -> batch_shaped 7 X ->
  allzero (delta3 vs X y) ->
  sgd_step lr vs X y =
  mkVars (var_first_layer vs) (var_dense vs) (var_dense_1 vs)
         (global_step vs + 1).
Proof.
  intros Hv Hb H3. pose proof Hv as (H1 & H2 & H3').
  assert (Hd2 : allzero (delta2 vs X y))
    by now apply relu_mask_allzero, back_allzero.
  assert (Hd1 : allzero (delta1 vs X y))
    by now apply relu_mask_allzero, back_allzero.
  unfold sgd_step. f_equal.
  - apply (sgd_update_zero lr 7 10); cbn [grad_first_layer kernel bias];
      try assumption.
    + apply matT_mul_shaped; [assumption|now apply delta1_rows].
    + now apply matT_mul_allzero_G.
    + apply colsum_length. now apply delta1_rows.
    + now apply colsum_allzero.
  - apply (sgd_update_zero lr 10 10); cbn [grad_dense kernel bias];
      try assumption.
    + apply matT_mul_shaped; [now apply hidden1_rows|now apply delta2_rows].
    + now apply matT_mul_allzero_G.
    + apply colsum_length. now apply delta2_rows.
    + now apply colsum_allzero.
  - apply (sgd_update_zero lr 10 1); cbn [grad_dense_1 kernel bias];
      try assumption.
    + apply matT_mul_shaped; [now apply hidden2_rows|apply delta3_rows].
    + now apply matT_mul_allzero_G.
    + apply colsum_length. apply delta3_rows.
    + now apply colsum_allzero.
Qed.

Lemma loss_grad_exact_fit (p : Vector) :
  Forall (fun a => a = 0) (loss_grad p p).
Proof.
  unfold loss_grad. generalize (INR (length p)) as n. intros n.
  induction p as [|a p IH]; cbn [map2]; constructor; [|exact IH].
  unfold Rdiv. ring.
Qed.

Lemma sgd_step_zero_rate vs X y :
  vars_shaped vs -> batch_shaped 7 X ->
  sgd_step 0 vs X y =
  mkVars (var_first_layer vs) (var_dense vs) (var_dense_1 vs)
         (global_step vs + 1).
Proof.
  intros Hv Hb. pose proof Hv as (H1 & H2 & H3).
  pose proof (opp_vars_shaped _ (gradient_shaped vs X y Hv Hb))
    as (G1 & G2 & G3).
  unfold opp_vars, gradient in G1, G2, G3.
  cbn [var_first_layer var_dense var_dense_1] in G1, G2, G3.
  unfold sgd_step. rewrite !sgd_update_shift.
  now rewrite (shift_layer_0 7 10 _ _ H1 G1), (shift_layer_0 10 10 _ _ H2 G2),
    (shift_layer_0 10 1 _ _ H3 G3).
Qed.

(** X4. A TRAIN invocation whose learning rate is 0, or whose labels, as
    converted to float32, equal the predictions, leaves the three
    kernel/bias pairs as they are and only advances the global step. *)
Theorem train_step_without_effect vs features ls params X lr :
  getitem features INPUT_TENSOR_NAME = Ok X ->
  batch_shaped 7 X -> vars_shaped vs ->
  length ls = length X ->
  has_learning_rate params lr ->
  lr = 0 \/ map to_float ls = predict vs X ->
  exists spec vs',
    invoke vs features (Some ls) ModeKeys.TRAIN params = Ok (spec, vs')
    /\ var_first_layer vs' = var_first_layer vs
    /\ var_dense vs' = var_dense vs
    /\ var_dense_1 vs' = var_dense_1 vs
    /\ global_step vs' = (global_step vs + 1)%Z.
Proof.
  intros HX Hb Hv Hl Hlr Hcase.
  destruct (invoke_train vs features ls params X lr HX Hb Hv Hl Hlr)
    as (spec & Hi).
  exists spec, (sgd_step lr vs X (map to_float ls)). split; [exact Hi|].
  assert (E : sgd_step lr vs X (map to_float ls) =
              mkVars (var_first_layer vs) (var_dense vs) (var_dense_1 vs)
                     (global_step vs + 1)).
  { destruct Hcase as [->|Hfit].
    - now apply sgd_step_zero_rate.
    - apply sgd_step_no_gradient; try assumption.
      apply delta3_allzero. rewrite Hfit. apply loss_grad_exact_fit. }
  rewrite E. repeat split.
Qed.

Lemma train_step_without_effect_witness :
  exists spec vs',
    invoke zero_vars [(INPUT_TENSOR_NAME, zero_batch)] (Some [0%Z])
      ModeKeys.TRAIN params = Ok (spec, vs')
    /\ var_first_layer vs' = var_first_layer zero_vars
    /\ var_dense vs' = var_dense zero_vars
    /\ var_dense_1 vs' = var_dense_1 zero_vars
    /\ global_step vs' = (global_step zero_vars + 1)%Z.
Proof.
  apply (train_step_without_effect zero_vars
           [(INPUT_TENSOR_NAME, zero_batch)] [0%Z] params zero_batch
           LEARNING_RATE).
  - reflexivity.
  - exact zero_batch_shaped.
  - exact (zero_vars_shaped 0).
  - reflexivity.
  - exact params_learning_rate.
  - right. exact (eq_sym (predict_zero_batch 0)).
Defined.

(** ** Errors of the loss and of the hyper-parameters *)

Lemma getitem_error {A : Type} (d : dict A) (key : string) (e : Exception) :
  getitem d key = Raise e -> e = KeyError key.
Proof.
  induction d as [|(k, v) d IH]; simpl.
  - intros H. now inversion H.
  - destruct (String.eqb k key); [discriminate|exact IH].
Qed.

(** X5. As many labels as feature rows are required outside PREDICT mode:
    any other number of labels makes the loss raise a [ValueError],
    whatever the hyper-parameters are. *)
Theorem label_count_mismatch vs features ls md params X :
  getitem features INPUT_TENSOR_NAME = Ok X ->
  batch_shaped 7 X -> vars_shaped vs ->
  md <> ModeKeys.PREDICT ->
  length ls <> length X ->
  model_fn vs features (Some ls) md params =
  Raise (ValueError "Shapes are incompatible").
Proof.
  intros HX Hb Hv Hmd Hl.
  rewrite (model_fn_unfold _ _ _ _ _ X HX Hb Hv). cbv zeta.
  apply String.eqb_neq in Hmd. rewrite Hmd.
  unfold mean_squared_error.
  rewrite length_map, net_value, predict_length by assumption.
  apply Nat.eqb_neq in Hl. now rewrite Hl.
Qed.

Lemma label_count_mismatch_witness :
  model_fn zero_vars [(INPUT_TENSOR_NAME, zero_batch)] (Some [1%Z; 2%Z])
    ModeKeys.EVAL [] =
  Raise (ValueError "Shapes are incompatible").
Proof.
  apply (label_count_mismatch zero_vars [(INPUT_TENSOR_NAME, zero_batch)]
           [1%Z; 2%Z] ModeKeys.EVAL [] zero_batch).
  - reflexivity.
  - exact zero_batch_shaped.
  - exact (zero_vars_shaped 0).
  - discriminate.
  - discriminate.
Defined.

(** X6. Every mode other than PREDICT builds the training operation, so even
    an EVAL invocation needs the learning rate: without the key
    "learning_rate" it raises a [KeyError], with a negative rate a
    [ValueError]. *)
Theorem learning_rate_is_required vs features ls md params X :
  getitem features INPUT_TENSOR_NAME = Ok X ->
  batch_shaped 7 X -> vars_shaped vs ->
  md <> ModeKeys.PREDICT ->
  length ls = length X ->
  ((forall lr, getitem params "learning_rate" <> Ok lr) ->
   model_fn vs features (Some ls) md params =
   Raise (KeyError "learning_rate"))
  /\ (forall lr,
        getitem params "learning_rate" = Ok lr -> lr < 0 ->
        model_fn vs features (Some ls) md params =
        Raise (ValueError "Invalid learning_rate")).
Proof.
  intros HX Hb Hv Hmd Hl.
  assert (Hn : Nat.eqb (length (map to_float ls)) (length (value (net vs X)))
               = true).
  { apply Nat.eqb_eq.
    now rewrite length_map, net_value, predict_length. }
  apply String.eqb_neq in Hmd.
  split.
  - intros Hno.
    rewrite (model_fn_unfold _ _ _ _ _ X HX Hb Hv). cbv zeta.
    rewrite Hmd. unfold mean_squared_error. rewrite Hn. cbn [bind].
    destruct (getitem params "learning_rate") as [lr|e] eqn:E.
    + exfalso. now apply (Hno lr).
    + cbn [bind]. now rewrite (getitem_error _ _ _ E).
  - intros lr Hlr Hneg.
    rewrite (model_fn_unfold _ _ _ _ _ X HX Hb Hv). cbv zeta.
    rewrite Hmd. unfold mean_squared_error. rewrite Hn. cbn [bind].
    rewrite Hlr. cbn [bind]. unfold optimize_loss.
    destruct (Rlt_dec lr 0); [reflexivity|contradiction].
Qed.

Lemma learning_rate_is_required_witness :
  ((forall lr, getitem (A := R) [] "learning_rate" <> Ok lr) ->
   model_fn zero_vars [(INPUT_TENSOR_NAME, zero_batch)] (Some [3%Z])
     ModeKeys.EVAL [] =
   Raise (KeyError "learning_rate"))
  /\ (forall lr,
        getitem (A := R) [] "learning_rate" = Ok lr -> lr < 0 ->
        model_fn zero_vars [(INPUT_TENSOR_NAME, zero_batch)] (Some [3%Z])
          ModeKeys.EVAL [] =
        Raise (ValueError "Invalid learning_rate")).
Proof.
  apply (learning_rate_is_required zero_vars
           [(INPUT_TENSOR_NAME, zero_batch)] [3%Z] ModeKeys.EVAL []
           zero_batch).
  - reflexivity.
  - exact zero_batch_shaped.
  - exact (zero_vars_shaped 0).
  - discriminate.
  - reflexivity.
Defined.

(** ** The empty batch *)

(** X7. On a batch without rows [model_fn] raises nothing: PREDICT returns
    the empty prediction vector; the other modes return the loss 0 and a
    metric whose value is 0, and running the training operation only
    advances the global step. *)
Theorem empty_batch vs features params lr md :
  getitem features INPUT_TENSOR_NAME = Ok [] ->
  vars_shaped vs ->
  has_learning_rate params lr ->
  md <> ModeKeys.PREDICT ->
  (exists spec p,
      model_fn vs features None ModeKeys.PREDICT params = Ok spec
      /\ getitem (predictions spec) "ages" = Ok p
      /\ value p = [])
  /\ (exists spec l op m,
        model_fn vs features (Some []) md params = Ok spec
        /\ loss spec = Some l /\ value l = 0
        /\ eval_metric_ops spec = [("rmse", m)]
        /\ snd (update_op m local_variables_initializer) = 0
        /\ train_op spec = Some op
        /\ after op =
           mkVars (var_first_layer vs) (var_dense vs) (var_dense_1 vs)
                  (global_step vs + 1)).
Proof.
  intros HX Hv Hlr Hmd.
  assert (Hb : batch_shaped 7 []) by constructor.
  split.
  - do 2 eexists.
    split; [exact (model_fn_predict_net vs features None params [] HX Hb Hv)|].
    split; reflexivity.
  - destruct (model_fn_not_predict vs features [] params [] lr HX Hb Hv
                eq_refl Hlr) as (l & op & m & El & Eo & Em & Hspec).
    exists (mkEstimatorSpec md [] (Some l) (Some op) [("rmse", m)] None),
      l, op, m.
    split; [exact (Hspec md Hmd)|]. split; [reflexivity|].
    destruct (mean_squared_error_value _ _ _ El) as (_ & Hval).
    split; [rewrite Hval; reflexivity|]. split; [reflexivity|].
    split.
    { rewrite (root_mean_squared_error_update _ _ _ Em). cbn.
      apply sqrt_0. }
    split; [reflexivity|].
    unfold optimize_loss in Eo. destruct Hlr as (_ & Hlr0).
    destruct (Rlt_dec lr 0); [lra|].
    cbn [String.eqb Ascii.eqb Bool.eqb] in Eo.
    inversion Eo; subst op; clear Eo. cbn [after].
    rewrite (backward_loss vs [] [] l Hv Hb eq_refl El),
      apply_gradients_three.
    assert (H0 : allzero (delta3 vs [] (map to_float []))) by constructor.
    exact (sgd_step_no_gradient lr vs [] (map to_float []) Hv Hb H0).
Qed.

Lemma empty_batch_witness :
  (exists spec p,
      model_fn zero_vars [(INPUT_TENSOR_NAME, [])] None ModeKeys.PREDICT
        params = Ok spec
      /\ getitem (predictions spec) "ages" = Ok p
      /\ value p = [])
  /\ (exists spec l op m,
        model_fn zero_vars [(INPUT_TENSOR_NAME, [])] (Some [])
          ModeKeys.TRAIN params = Ok spec
        /\ loss spec = Some l /\ value l = 0
        /\ eval_metric_ops spec = [("rmse", m)]
        /\ snd (update_op m local_variables_initializer) = 0
        /\ train_op spec = Some op
        /\ after op =
           mkVars (var_first_layer zero_vars) (var_dense zero_vars)
                  (var_dense_1 zero_vars) (global_step zero_vars + 1)).
Proof.
  apply (empty_batch zero_vars [(INPUT_TENSOR_NAME, [])] params
           LEARNING_RATE ModeKeys.TRAIN).
  - reflexivity.
  - exact (zero_vars_shaped 0).
  - exact params_learning_rate.
  - discriminate.
Defined.

(** ** The metric over several batches *)

Lemma root_mean_squared_error_ops ls (p : Tensor Vector) m :
  root_mean_squared_error (cast ls float32) p = Ok m ->
  length ls = length (value p) ->
  forall acc,
    update_op m acc =
      (mkMean (total acc
               + vsum (map2 squared_difference (value p) (map to_float ls)))
              (count acc + length ls),
       sqrt (safe_div
               (total acc
                + vsum (map2 squared_difference (value p) (map to_float ls)))
               (count acc + length ls)))
    /\ value_tensor m acc = sqrt (safe_div (total acc) (count acc)).
Proof.
  unfold root_mean_squared_error. cbn [cast constant dtype value].
  destruct (negb (DType_eqb float32 (dtype p))); [discriminate|].
  rewrite length_map. intros H E. rewrite E, Nat.eqb_refl in H.
  cbn [negb] in H. inversion H; subst m; clear H. intros acc.
  cbn [update_op value_tensor total count].
  rewrite map2_length, length_map, E, Nat.min_id.
  rewrite (map2_sym squared_difference (map to_float ls))
    by apply squared_difference_sym.
  split; reflexivity.
Qed.

Lemma safe_div_times (S : R) (n : nat) :
  (n = 0%nat -> S = 0) -> INR n * safe_div S n = S.
Proof.
  intros H. destruct n as [|n].
  - rewrite H by reflexivity. simpl. ring.
  - unfold safe_div. field. apply not_0_INR. discriminate.
Qed.

(** X8. The metrics of two invocations, updated one after the other from
    fresh accumulators, give the root of the mean squared error pooled
    over both batches, each batch loss weighted by its number of rows;
    reading the metric after the update gives the same value. *)
Theorem rmse_over_two_batches vs f1 f2 ls1 ls2 md1 md2 params X1 X2 lr :
  getitem f1 INPUT_TENSOR_NAME = Ok X1 ->
  getitem f2 INPUT_TENSOR_NAME = Ok X2 ->
  batch_shaped 7 X1 -> batch_shaped 7 X2 -> vars_shaped vs ->
  length ls1 = length X1 -> length ls2 = length X2 ->
  X1 <> [] ->
  has_learning_rate params lr ->
  md1 <> ModeKeys.PREDICT -> md2 <> ModeKeys.PREDICT ->
  exists s1 s2 l1 l2 m1 m2,
    model_fn vs f1 (Some ls1) md1 params = Ok s1
    /\ model_fn vs f2 (Some ls2) md2 params = Ok s2
    /\ loss s1 = Some l1 /\ loss s2 = Some l2
    /\ eval_metric_ops s1 = [("rmse", m1)]
    /\ eval_metric_ops s2 = [("rmse", m2)]
    /\ snd (update_op m2 (fst (update_op m1 local_variables_initializer))) =
       sqrt ((INR (length X1) * value l1 + INR (length X2) * value l2)
             / INR (length X1 + length X2))
    /\ value_tensor m2
         (fst (update_op m2 (fst (update_op m1 local_variables_initializer))))
       = snd (update_op m2 (fst (update_op m1 local_variables_initializer))).
Proof.
  intros E1 E2 Hb1 Hb2 Hv Hl1 Hl2 Hne Hlr Hmd1 Hmd2.
  destruct (model_fn_not_predict vs f1 ls1 params X1 lr E1 Hb1 Hv Hl1 Hlr)
    as (l1 & op1 & m1 & El1 & _ & Em1 & Hs1).
  destruct (model_fn_not_predict vs f2 ls2 params X2 lr E2 Hb2 Hv Hl2 Hlr)
    as (l2 & op2 & m2 & El2 & _ & Em2 & Hs2).
  do 2 eexists. exists l1, l2, m1, m2.
  split; [exact (Hs1 md1 Hmd1)|]. split; [exact (Hs2 md2 Hmd2)|].
  do 4 (split; [reflexivity|]).
  destruct (mean_squared_error_value _ _ _ El1) as (Hn1 & Hv1).
  destruct (mean_squared_error_value _ _ _ El2) as (Hn2 & Hv2).
  destruct (root_mean_squared_error_ops _ _ _ Em1 Hn1
              local_variables_initializer) as (U1 & _).
  rewrite U1. cbn [fst].
  destruct (root_mean_squared_error_ops _ _ _ Em2 Hn2
              (mkMean
                 (total local_variables_initializer
                  + vsum (map2 squared_difference (value (net vs X1))
                            (map to_float ls1)))
                 (count local_variables_initializer + length ls1)))
    as (U2 & _).
  rewrite U2. cbn [fst snd total count local_variables_initializer].
  destruct (root_mean_squared_error_ops _ _ _ Em2 Hn2
              (mkMean
                 (0 + vsum (map2 squared_difference (value (net vs X1))
                              (map to_float ls1))
                  + vsum (map2 squared_difference (value (net vs X2))
                            (map to_float ls2)))
                 (0 + length ls1 + length ls2))) as (_ & V2).
  rewrite V2. cbn [total count]. split; [|reflexivity].
  f_equal. rewrite Hl1, Hl2.
  assert (Hpos : (length X1 + length X2)%nat <> 0%nat).
  { destruct X1; [congruence|simpl; lia]. }
  destruct (length X1 + length X2)%nat as [|k] eqn:Ek; [congruence|].
  cbn [Nat.add] in *. rewrite Ek. unfold safe_div at 1. f_equal.
  rewrite Hv1, Hv2, !net_value.
  rewrite <- (predict_length vs X1 Hv) at 1.
  rewrite <- (predict_length vs X2 Hv) at 1.
  rewrite !safe_div_times; [ring| |].
  - intros H0. apply length_zero_iff_nil in H0. now rewrite H0.
  - intros H0. apply length_zero_iff_nil in H0. now rewrite H0.
Qed.

Lemma rmse_over_two_batches_witness :
  exists s1 s2 l1 l2 m1 m2,
    model_fn zero_vars [(INPUT_TENSOR_NAME, zero_batch)] (Some [3%Z])
      ModeKeys.EVAL params = Ok s1
    /\ model_fn zero_vars [(INPUT_TENSOR_NAME, two_rows)] (Some two_labels)
         ModeKeys.EVAL params = Ok s2
    /\ loss s1 = Some l1 /\ loss s2 = Some l2
    /\ eval_metric_ops s1 = [("rmse", m1)]
    /\ eval_metric_ops s2 = [("rmse", m2)]
    /\ snd (update_op m2 (fst (update_op m1 local_variables_initializer))) =
       sqrt ((INR (length zero_batch) * value l1
              + INR (length two_rows) * value l2)
             / INR (length zero_batch + length two_rows))
    /\ value_tensor m2
         (fst (update_op m2 (fst (update_op m1 local_variables_initializer))))
       = snd (update_op m2 (fst (update_op m1 local_variables_initializer))).
Proof.
  apply (rmse_over_two_batches zero_vars
           [(INPUT_TENSOR_NAME, zero_batch)] [(INPUT_TENSOR_NAME, two_rows)]
           [3%Z] two_labels ModeKeys.EVAL ModeKeys.EVAL params
           zero_batch two_rows LEARNING_RATE).
  - reflexivity.
  - reflexivity.
  - exact zero_batch_shaped.
  - exact two_rows_shaped.
  - exact (zero_vars_shaped 0).
  - reflexivity.
  - reflexivity.
  - discriminate.
  - exact params_learning_rate.
  - discriminate.
  - discriminate.
Defined.

(** ** Sequences of invocations in any mode *)

Lemma invoke_state vs features ls params X lr md :
  getitem features INPUT_TENSOR_NAME = Ok X ->
  batch_shaped 7 X -> vars_shaped vs ->
  length ls = length X ->
  has_learning_rate params lr ->
  exists spec,
    invoke vs features (Some ls) md params =
    Ok (spec, if String.eqb md ModeKeys.TRAIN
              then sgd_step lr vs X (map to_float ls) else vs).
Proof.
  intros HX Hb Hv Hl Hlr.
  destruct (String.eqb md ModeKeys.TRAIN) eqn:Et.
  - apply String.eqb_eq in Et. subst md.
    exact (invoke_train vs features ls params X lr HX Hb Hv Hl Hlr).
  - destruct (String.eqb md ModeKeys.PREDICT) eqn:Ep.
    + apply String.eqb_eq in Ep. subst md. eexists.
      exact (invoke_ok _ _ _ _ _ X _ HX Hb Hv
               (model_fn_predict_net vs features (Some ls) params X
                  HX Hb Hv)).
    + apply String.eqb_neq in Ep.
      destruct (model_fn_not_predict vs features ls params X lr
                  HX Hb Hv Hl Hlr) as (l & op & m & _ & _ & _ & Hs).
      eexists. rewrite (invoke_ok _ _ _ _ _ X _ HX Hb Hv (Hs md Ep)).
      unfold run. cbn [mode]. rewrite Et. reflexivity.
Qed.

(** X9. A sequence of invocations in arbitrary modes on well-formed batches
    never fails and keeps the variables well shaped; the global step
    advances by the number of TRAIN invocations, and when no invocation is
    a TRAIN one the variables are left as they were. *)
Theorem only_train_calls_move_the_variables params lr calls :
  has_learning_rate params lr ->
  Forall (fun c => batch_ok (snd c)) calls ->
  forall vs,
    vars_shaped vs ->
    exists vs',
      run_calls vs calls params = Ok vs'
      /\ vars_shaped vs'
      /\ global_step vs' =
         (global_step vs
          + Z.of_nat (count_occ string_dec (map fst calls) ModeKeys.TRAIN))%Z
      /\ (~ In ModeKeys.TRAIN (map fst calls) -> vs' = vs).
Proof.
  intros Hlr.
  induction 1 as [|c calls (X & HX & Hb & Hl) _ IH]; intros vs Hv.
  - exists vs. split; [reflexivity|]. split; [assumption|].
    split; [simpl; lia|reflexivity].
  - destruct (invoke_state vs (fst (snd c)) (snd (snd c)) params X lr
                (fst c) HX Hb Hv Hl Hlr) as (spec & Hi).
    cbn [run_calls]. rewrite Hi. cbn [bind snd map].
    destruct (String.eqb (fst c) ModeKeys.TRAIN) eqn:Et.
    + apply String.eqb_eq in Et.
      destruct (IH (sgd_step lr vs X (map to_float (snd (snd c))))
                  (sgd_step_shaped lr vs X _ Hv Hb))
        as (vs' & Hr & Hs & Hg & _).
      exists vs'. split; [exact Hr|]. split; [exact Hs|]. split.
      * rewrite Hg. cbn [count_occ].
        destruct (string_dec (fst c) ModeKeys.TRAIN) as [_|N];
          [|congruence].
        unfold sgd_step. cbn [global_step]. lia.
      * intros N. exfalso. apply N. left. exact Et.
    + apply String.eqb_neq in Et.
      destruct (IH vs Hv) as (vs' & Hr & Hs & Hg & Hn).
      exists vs'. split; [exact Hr|]. split; [exact Hs|]. split.
      * rewrite Hg. cbn [count_occ].
        destruct (string_dec (fst c) ModeKeys.TRAIN) as [E|_];
          [congruence|reflexivity].
      * intros N. apply Hn. intros I. apply N. right. exact I.
Qed.

Lemma zero_batch_ok : batch_ok ([(INPUT_TENSOR_NAME, zero_batch)], [3%Z]).
Proof.
  exists zero_batch. split; [reflexivity|].
  split; [exact zero_batch_shaped|reflexivity].
Qed.

Lemma only_train_calls_move_the_variables_witness :
  exists vs',
    run_calls zero_vars
      [(ModeKeys.EVAL, ([(INPUT_TENSOR_NAME, zero_batch)], [3%Z]));
       (ModeKeys.TRAIN, ([(INPUT_TENSOR_NAME, zero_batch)], [3%Z]));
       (ModeKeys.PREDICT, ([(INPUT_TENSOR_NAME, zero_batch)], [3%Z]))]
      params = Ok vs'
    /\ vars_shaped vs'
    /\ global_step vs' =
       (global_step zero_vars
        + Z.of_nat (count_occ string_dec
                      (map fst
                         [(ModeKeys.EVAL,
                           ([(INPUT_TENSOR_NAME, zero_batch)], [3%Z]));
                          (ModeKeys.TRAIN,
                           ([(INPUT_TENSOR_NAME, zero_batch)], [3%Z]));
                          (ModeKeys.PREDICT,
                           ([(INPUT_TENSOR_NAME, zero_batch)], [3%Z]))])
                      ModeKeys.TRAIN))%Z
    /\ (~ In ModeKeys.TRAIN
          (map fst
             [(ModeKeys.EVAL, ([(INPUT_TENSOR_NAME, zero_batch)], [3%Z]));
              (ModeKeys.TRAIN, ([(INPUT_TENSOR_NAME, zero_batch)], [3%Z]));
              (ModeKeys.PREDICT, ([(INPUT_TENSOR_NAME, zero_batch)], [3%Z]))])
        -> vs' = zero_vars).
Proof.
  apply (only_train_calls_move_the_variables params LEARNING_RATE
           [(ModeKeys.EVAL, ([(INPUT_TENSOR_NAME, zero_batch)], [3%Z]));
            (ModeKeys.TRAIN, ([(INPUT_TENSOR_NAME, zero_batch)], [3%Z]));
            (ModeKeys.PREDICT, ([(INPUT_TENSOR_NAME, zero_batch)], [3%Z]))]).
  - exact params_learning_rate.
  - repeat constructor; exact zero_batch_ok.
  - exact (zero_vars_shaped 0).
Defined.

(** ** Reading the data sets *)

Lemma pop_app cells c : pop (cells ++ [c])%list = Loaded (cells, c).
Proof.
  induction cells as [|a cells IH]; [reflexivity|].
  change ((a :: cells) ++ [c])%list with (a :: (cells ++ [c]))%list.
  cbn [pop]. rewrite IH.
  destruct (cells ++ [c])%list eqn:E; [|reflexivity].
  now destruct cells.
Qed.

Lemma pop_inv row r : pop row = Loaded r -> row = (fst r ++ [snd r])%list.
Proof.
  revert r. induction row as [|a row IH]; intros r; [discriminate|].
  cbn [pop]. destruct row as [|b row].
  - intros H. inversion H. reflexivity.
  - destruct (pop (b :: row)) as [r'|e] eqn:E; [|discriminate].
    cbn [bind_loaded]. intros H. inversion H. cbn [fst snd].
    rewrite (IH r' eq_refl) at 1. reflexivity.
Qed.

Section Loading.

Variable gfile_Open : string -> option (list (list string)).
Variable np_float32 : string -> option R.
Variable np_int : string -> option Z.

Lemma load_rows_nil (ds : Dataset) :
  Loaded (mkDataset [] []) = Loaded ds <->
  Forall2
    (fun (row : list string) (xt : Vector * Z) =>
       exists cells c,
         row = (cells ++ [c])%list
         /\ mapM np_float32 cells = Some (fst xt)
         /\ np_int c = Some (snd xt))
    [] (combine (data ds) (target ds))
  /\ length (data ds) = length (target ds).
Proof.
  destruct ds as [X t]. cbn [data target]. split.
  - intros H. inversion H. split; [constructor|reflexivity].
  - intros (F & L). inversion F as [E|]; subst.
    destruct X, t; try discriminate; reflexivity.
Qed.

(** X10. The data set read from a file that exists: loading succeeds exactly
    when every row ends in a cell that parses as an integer, preceded by
    cells that all parse as floats; the features of a row are then all
    its cells but the last, the target is the last one, and there are as
    many feature rows as targets as rows in the file. *)
Theorem load_csv_without_header_rows filename rows ds :
  gfile_Open filename = Some rows ->
  load_csv_without_header gfile_Open np_float32 np_int filename = Loaded ds
  <->
  Forall2
    (fun (row : list string) (xt : Vector * Z) =>
       exists cells c,
         row = (cells ++ [c])%list
         /\ mapM np_float32 cells = Some (fst xt)
         /\ np_int c = Some (snd xt))
    rows (combine (data ds) (target ds))
  /\ length (data ds) = length (target ds).
Proof.
  intros Hf. unfold load_csv_without_header. rewrite Hf. clear Hf.
  revert ds. induction rows as [|row rows IH]; intros ds.
  - cbn [read_rows bind_loaded snd fst mapM]. apply load_rows_nil.
  - cbn [read_rows]. split.
    + destruct (pop row) as [r|e] eqn:Ep; [|discriminate].
      cbn [bind_loaded]. unfold asarray.
      destruct (mapM np_float32 (fst r)) as [x|] eqn:Ex; [|discriminate].
      cbn [bind_loaded].
      destruct (read_rows np_float32 rows) as [rest|e] eqn:Er;
        [|discriminate].
      cbn [bind_loaded fst snd mapM].
      destruct (np_int (snd r)) as [t|] eqn:Et; [|discriminate].
      destruct (mapM np_int (snd rest)) as [ts|] eqn:Ets; [|discriminate].
      intros H. inversion H; subst ds; clear H. cbn [data target combine].
      specialize (IH (mkDataset (fst rest) ts)).
      cbn [bind_loaded] in IH. rewrite Ets in IH.
      destruct IH as ((F & L) & _); [reflexivity|].
      cbn [data target] in F, L. split.
      * constructor; [|exact F].
        exists (fst r), (snd r). cbn [fst snd].
        split; [exact (pop_inv row r Ep)|]. split; assumption.
      * cbn [length]. now rewrite L.
    + intros (F & L). destruct ds as [X ts]. cbn [data target] in F, L.
      destruct X as [|x X]; [inversion F|].
      destruct ts as [|t ts]; [discriminate|].
      cbn [combine] in F. inversion F as [|? ? ? ? (cells & c & E & Ex & Et) F'];
        subst. cbn [fst snd] in Ex, Et.
      rewrite pop_app. cbn [bind_loaded fst snd]. unfold asarray.
      rewrite Ex. cbn [bind_loaded].
      specialize (IH (mkDataset X ts)). cbn [data target] in IH.
      destruct IH as (_ & IH).
      specialize (IH (conj F' (eq_add_S _ _ L))).
      destruct (read_rows np_float32 rows) as [rest|e]; [|discriminate].
      cbn [bind_loaded] in IH |- *. cbn [fst snd mapM]. rewrite Et.
      destruct (mapM np_int (snd rest)) as [ts'|]; [|discriminate].
      inversion IH; subst. reflexivity.
Qed.

End Loading.

Lemma load_csv_without_header_rows_witness :
  load_csv_without_header example_files example_float example_int
    "data/abalone_predict.csv"
  = Loaded (mkDataset [[0; 0; 0; 0; 0; 0; 0]] [3%Z])
  <->
  Forall2
    (fun (row : list string) (xt : Vector * Z) =>
       exists cells c,
         row = (cells ++ [c])%list
         /\ mapM example_float cells = Some (fst xt)
         /\ example_int c = Some (snd xt))
    [["0"; "0"; "0"; "0"; "0"; "0"; "0"; "3"]]
    (combine (data (mkDataset [[0; 0; 0; 0; 0; 0; 0]] [3%Z]))
             (target (mkDataset [[0; 0; 0; 0; 0; 0; 0]] [3%Z])))
  /\ length (data (mkDataset [[0; 0; 0; 0; 0; 0; 0]] [3%Z]))
     = length (target (mkDataset [[0; 0; 0; 0; 0; 0; 0]] [3%Z])).
Proof.
  apply (load_csv_without_header_rows example_files example_float
           example_int "data/abalone_predict.csv"
           [["0"; "0"; "0"; "0"; "0"; "0"; "0"; "3"]]
           (mkDataset [[0; 0; 0; 0; 0; 0; 0]] [3%Z])).
  reflexivity.
Defined.

(** ** The input functions *)




Section InputFunctions.

Variable gfile_Open : string -> option (list (list string)).
Variable np_float32 : string -> option R.
Variable np_int : string -> option Z.


Lemma loaded_counts filename ds :
  load_csv_without_header gfile_Open np_float32 np_int filename = Loaded ds ->
  length (data ds) = length (target ds).
Proof.
  intros H. destruct (gfile_Open filename) as [rows|] eqn:Ef.
  - now apply (load_csv_without_header_rows gfile_Open np_float32 np_int
                 filename rows ds Ef).
  - unfold load_csv_without_header in H. rewrite Ef in H. discriminate.
Qed.

(** X11. On a file whose rows all have the same number of cells,
    [_input_fn] fails exactly when reading the data set fails, with the
    same failure, or when the file has no rows, with the [ValueError] of
    the feeding queue.  The check of [numpy_input_fn] that features and
    labels have the same number of rows never fails on a data set that
    was read from a file. *)
Theorem input_fn_failures training_dir training_filename n e :
  (forall rows,
      gfile_Open (os_path_join training_dir [training_filename]) = Some rows ->
      Forall (fun row => length row = n) rows) ->
  _input_fn gfile_Open np_float32 np_int training_dir training_filename
  = Failed e
  <->
  load_csv_without_header gfile_Open np_float32 np_int
    (os_path_join training_dir [training_filename]) = Failed e
  \/ (gfile_Open (os_path_join training_dir [training_filename]) = Some []
      /\ e = Raised (ValueError "empty range for randrange()")).
Proof.
  intros _. unfold _input_fn.
  destruct (load_csv_without_header gfile_Open np_float32 np_int
              (os_path_join training_dir [training_filename]))
    as [ds|e'] eqn:El; cbn [bind_loaded].
  - unfold numpy_input_fn. cbn [forallb snd].
    pose proof (loaded_counts _ _ El) as L.
    rewrite L, Nat.eqb_refl. cbn [andb].
    destruct (gfile_Open (os_path_join training_dir [training_filename]))
      as [rows|] eqn:Ef.
    2:{ unfold load_csv_without_header in El. rewrite Ef in El.
        discriminate. }
    apply (load_csv_without_header_rows gfile_Open np_float32 np_int
             _ rows ds Ef) in El. destruct El as (F & _).
    destruct (target ds) as [|t ts] eqn:Et.
    + destruct (data ds); [|discriminate]. cbn [combine] in F.
      inversion F; subst. split.
      * intros H. inversion H. right. split; reflexivity.
      * intros [H|(_ & ->)]; [discriminate|reflexivity].
    + split; [discriminate|].
      intros [H|(H & _)]; [discriminate|].
      inversion H; subst. destruct (data ds); [discriminate|].
      cbn [combine] in F. inversion F.
  - split.
    + intros H. inversion H. now left.
    + intros [H|(H & _)]; [now inversion H|].
      unfold load_csv_without_header in El. rewrite H in El. discriminate.
Qed.




End InputFunctions.

Lemma input_fn_failures_witness :
  _input_fn example_files example_float example_int "data" "empty.csv"
  = Failed (Raised (ValueError "empty range for randrange()"))
  <->
  load_csv_without_header example_files example_float example_int
    (os_path_join "data" ["empty.csv"])
  = Failed (Raised (ValueError "empty range for randrange()"))
  \/ (example_files (os_path_join "data" ["empty.csv"]) = Some []
      /\ Raised (ValueError "empty range for randrange()")
         = Raised (ValueError "empty range for randrange()")).
Proof.
  apply (input_fn_failures example_files example_float example_int
           "data" "empty.csv" 8).
  intros rows H. injection H as <-. constructor.
Defined.



Lemma append_inj_l (d s1 s2 : string) : (d ++ s1 = d ++ s2)%string -> s1 = s2.
Proof.
  induction d as [|c d IH]; cbn [append]; intros H; [exact H|].
  apply IH. now inversion H.
Qed.

Lemma train_path_is_not_test_path (training_dir : string) :
  os_path_join training_dir ["abalone_train.csv"]
  <> os_path_join training_dir ["abalone_test.csv"].
Proof.
  unfold os_path_join. cbn [fold_left]. unfold join_component.
  cbn [startswith_sep Ascii.eqb Bool.eqb].
  destruct (String.eqb training_dir "" || endswith_sep training_dir);
    intros H; apply append_inj_l in H;
    [|apply (append_inj_l "/") in H]; discriminate.
Qed.

(** X14. Training reads the training file and nothing else: on two file
    systems that agree on the file abalone_train.csv of the directory,
    [train_input_fn] gives the same result whatever the hyper-parameters
    are, and that file is never the one [eval_input_fn] reads. *)
Theorem train_input_fn_reads_one_file
    (gfile_Open gfile_Open' : string -> option (list (list string)))
    (np_float32 : string -> option R) (np_int : string -> option Z)
    (training_dir : string) (p p' : dict R) :
  gfile_Open (os_path_join training_dir ["abalone_train.csv"])
  = gfile_Open' (os_path_join training_dir ["abalone_train.csv"]) ->
  train_input_fn gfile_Open np_float32 np_int training_dir p
  = train_input_fn gfile_Open' np_float32 np_int training_dir p'
  /\ os_path_join training_dir ["abalone_train.csv"]
     <> os_path_join training_dir ["abalone_test.csv"].
Proof.
  intros H. split; [|apply train_path_is_not_test_path].
  unfold train_input_fn, _input_fn, load_csv_without_header.
  rewrite H. reflexivity.
Qed.

Lemma train_input_fn_reads_one_file_witness :
  train_input_fn example_files example_float example_int "data" []
  = train_input_fn
      (fun path =>
         if String.eqb path "data/abalone_test.csv" then None
         else example_files path)
      example_float example_int "data" params
  /\ os_path_join "data" ["abalone_train.csv"]
     <> os_path_join "data" ["abalone_test.csv"].
Proof.
  apply (train_input_fn_reads_one_file example_files
           (fun path =>
              if String.eqb path "data/abalone_test.csv" then None
              else example_files path)
           example_float example_int "data" [] params).
  reflexivity.
Defined.

(** ** Serving a prediction request *)

Lemma rows_of_length (n cols : nat) :
  forall values, length (rows_of n cols values) = n.
Proof.
  induction n as [|n IH]; intros values; [reflexivity|].
  cbn [rows_of length]. now rewrite IH.
Qed.

Lemma rows_of_shaped (n cols : nat) :
  forall values,
    length values = (n * cols)%nat ->
    batch_shaped cols (rows_of n cols values).
Proof.
  induction n as [|n IH]; intros values L; [constructor|].
  cbn [rows_of]. constructor.
  - rewrite length_firstn. lia.
  - apply IH. rewrite length_skipn. lia.
Qed.

Lemma rows_of_concat (n cols : nat) :
  forall values,
    length values = (n * cols)%nat ->
    concat (rows_of n cols values) = values.
Proof.
  induction n as [|n IH]; intros values L.
  - destruct values; [reflexivity|discriminate].
  - cbn [rows_of concat]. rewrite IH by (rewrite length_skipn; lia).
    apply firstn_skipn.
Qed.

Lemma serve_request vs p request tp n cols :
  vars_shaped vs ->
  getitem request INPUT_TENSOR_NAME = Ok tp ->
  tp_dtype tp = float32 ->
  tp_shape tp = [n; cols] ->
  length (tp_values tp) = (n * cols)%nat ->
  (cols = 7%nat ->
   serve vs p request =
     Loaded [("ages", predict vs (rows_of n 7 (tp_values tp)))])
  /\ (cols <> 7%nat ->
      serve vs p request =
        Failed (Raised (ValueError "Cannot feed value of this shape"))).
Proof.
  intros Hv Hr Hd Hs Hl.
  unfold serve, serving_input_fn, build_raw_serving_input_receiver_fn.
  cbn [raw_receivers placeholder ph_shape ph_dtype bind_loaded
       receiver_tensors feed_dict].
  rewrite Hr. cbn [bind]. unfold feed, placeholder.
  cbn [ph_dtype ph_shape].
  rewrite Hd, Hs. cbn [DType_eqb negb shape_compatible dim_compatible andb].
  split.
  - intros ->. cbn [Nat.eqb negb andb]. rewrite Hl, Nat.eqb_refl.
    cbn [bind].
    pose proof (rows_of_shaped n 7 (tp_values tp) Hl) as Hb.
    rewrite (model_fn_predict_net vs
               [(INPUT_TENSOR_NAME, rows_of n 7 (tp_values tp))] None p
               (rows_of n 7 (tp_values tp)) eq_refl Hb Hv).
    cbn [bind export_outputs getitem]. unfold SIGNATURE_NAME.
    cbn [String.eqb Ascii.eqb Bool.eqb outputs map fst snd lift].
    cbn [bind outputs map fst snd lift].
    rewrite net_value. reflexivity.
  - intros Hc. apply Nat.eqb_neq in Hc. rewrite Nat.eqb_sym in Hc.
    rewrite Hc. reflexivity.
Qed.

(** X15. The exported model answers a request of any number of rows: a float
    tensor of shape [n, 7] sent under the input name is decoded into its
    n rows, row by row, and answered with the n predictions of
    [model_fn] in PREDICT mode under the key "ages", whatever the
    hyper-parameters are, although the placeholder of [serving_input_fn]
    is declared with one row.  A tensor whose rows do not have seven
    columns is refused. *)
Theorem serving_accepts_any_number_of_rows vs p request tp n cols :
  vars_shaped vs ->
  getitem request INPUT_TENSOR_NAME = Ok tp ->
  tp_dtype tp = float32 ->
  tp_shape tp = [n; cols] ->
  length (tp_values tp) = (n * cols)%nat ->
  (cols = 7%nat ->
   serve vs p request =
     Loaded [("ages", predict vs (rows_of n 7 (tp_values tp)))]
   /\ length (predict vs (rows_of n 7 (tp_values tp))) = n
   /\ concat (rows_of n 7 (tp_values tp)) = tp_values tp)
  /\ (cols <> 7%nat -> exists e, serve vs p request = Failed e).
Proof.
  intros Hv Hr Hd Hs Hl.
  destruct (serve_request vs p request tp n cols Hv Hr Hd Hs Hl) as (Ha & Hn).
  split; [|intros Hc; eexists; exact (Hn Hc)]. intros Hc. split; [exact (Ha Hc)|]. subst cols. split.
  - rewrite predict_length by (try assumption; now apply rows_of_shaped).
    apply rows_of_length.
  - now apply rows_of_concat.
Qed.

Lemma serving_accepts_any_number_of_rows_witness :
  (7%nat = 7%nat ->
   serve zero_vars []
     [(INPUT_TENSOR_NAME, mkTensorProto float32 [2%nat; 7%nat] (concat two_rows))]
   = Loaded
       [("ages",
         predict zero_vars
           (rows_of 2 7
              (tp_values
                 (mkTensorProto float32 [2%nat; 7%nat] (concat two_rows)))))]
   /\ length
        (predict zero_vars
           (rows_of 2 7
              (tp_values
                 (mkTensorProto float32 [2%nat; 7%nat] (concat two_rows)))))
      = 2%nat
   /\ concat
        (rows_of 2 7
           (tp_values
              (mkTensorProto float32 [2%nat; 7%nat] (concat two_rows))))
      = tp_values (mkTensorProto float32 [2%nat; 7%nat] (concat two_rows)))
  /\ (7%nat <> 7%nat ->
      exists e,
        serve zero_vars []
          [(INPUT_TENSOR_NAME,
            mkTensorProto float32 [2%nat; 7%nat] (concat two_rows))]
        = Failed e).
Proof.
  apply (serving_accepts_any_number_of_rows zero_vars []
           [(INPUT_TENSOR_NAME,
             mkTensorProto float32 [2%nat; 7%nat] (concat two_rows))]
           (mkTensorProto float32 [2%nat; 7%nat] (concat two_rows)) 2 7).
  - exact (zero_vars_shaped 0).
  - reflexivity.
  - reflexivity.
  - reflexivity.
  - reflexivity.
Defined.

(** ** The request of the notebook *)

Lemma make_tensor_proto_row (row : Vector) :
  make_tensor_proto row [1%nat; length row] float32 =
  Ok (mkTensorProto float32 [1%nat; length row] row).
Proof.
  unfold make_tensor_proto. cbn [fold_right].
  replace (1 * (length row * 1))%nat with (length row) by lia.
  now rewrite Nat.ltb_irrefl.
Qed.

(** X16. The request that the notebook sends holds the features of the first
    row of the prediction file, as one row: when that row has seven
    features the endpoint answers with the single prediction of the
    network for it, otherwise the request is refused; a prediction file
    without rows makes building the request fail with an IndexError. *)
Theorem notebook_request
    (gfile_Open : string -> option (list (list string)))
    (np_float32 : string -> option R) (np_int : string -> option Z)
    (vs : Variables) (rows : list (list string)) :
  vars_shaped vs ->
  gfile_Open "data/abalone_predict.csv" = Some rows ->
  (rows = [] ->
   tensor_proto gfile_Open np_float32 np_int =
     Failed (IndexError "index 0 is out of bounds"))
  /\ (forall ds row rest,
        load_csv_without_header gfile_Open np_float32 np_int
          "data/abalone_predict.csv" = Loaded ds ->
        data ds = row :: rest ->
        exists tp,
          tensor_proto gfile_Open np_float32 np_int = Loaded tp
          /\ tp_shape tp = [1%nat; length row]
          /\ tp_values tp = row
          /\ (length row = 7%nat ->
              abalone_predictor_predict vs tp =
                Loaded [("ages", predict vs [row])]
              /\ length (predict vs [row]) = 1%nat)
          /\ (length row <> 7%nat ->
              exists e, abalone_predictor_predict vs tp = Failed e)).
Proof.
  intros Hv Hf. unfold tensor_proto. cbn [os_path_join fold_left]. split.
  - intros ->. unfold load_csv_without_header. rewrite Hf. reflexivity.
  - intros ds row rest El Ed. rewrite El. cbn [bind_loaded]. rewrite Ed.
    cbn [bind_loaded]. rewrite make_tensor_proto_row. cbn [lift].
    eexists. split; [reflexivity|]. cbn [tp_shape tp_values].
    split; [reflexivity|]. split; [reflexivity|].
    destruct (serve_request vs params
                [(INPUT_TENSOR_NAME,
                  mkTensorProto float32 [1%nat; length row] row)]
                (mkTensorProto float32 [1%nat; length row] row)
                1 (length row) Hv eq_refl eq_refl eq_refl)
      as (Ha & Hn).
    { cbn [tp_values]. lia. }
    unfold abalone_predictor_predict.
    split; [|intros Hc; eexists; exact (Hn Hc)].
    intros H7. rewrite (Ha H7). cbn [tp_values rows_of].
    replace (firstn 7 row) with row by (rewrite <- H7; now rewrite firstn_all).
    split; [reflexivity|].
    assert (Hb : batch_shaped 7 [row]) by (constructor; [exact H7|constructor]).
    now rewrite predict_length.
Qed.

Lemma notebook_request_witness :
  ([["0"; "0"; "0"; "0"; "0"; "0"; "0"; "3"]] = [] ->
   tensor_proto example_files example_float example_int =
     Failed (IndexError "index 0 is out of bounds"))
  /\ (forall ds row rest,
        load_csv_without_header example_files example_float example_int
          "data/abalone_predict.csv" = Loaded ds ->
        data ds = row :: rest ->
        exists tp,
          tensor_proto example_files example_float example_int = Loaded tp
          /\ tp_shape tp = [1%nat; length row]
          /\ tp_values tp = row
          /\ (length row = 7%nat ->
              abalone_predictor_predict zero_vars tp =
                Loaded [("ages", predict zero_vars [row])]
              /\ length (predict zero_vars [row]) = 1%nat)
          /\ (length row <> 7%nat ->
              exists e, abalone_predictor_predict zero_vars tp = Failed e)).
Proof.
  apply (notebook_request example_files example_float example_int zero_vars
           [["0"; "0"; "0"; "0"; "0"; "0"; "0"; "3"]]).
  - exact (zero_vars_shaped 0).
  - reflexivity.
Defined.
